(** * Geometry shader generation (VideoCommon/GeometryShaderGen.cpp)

    A shallow embedding of the geometry-shader text generator and of the
    enumerator of its variant keys.  The generator only ever appends to its
    [ShaderCode] buffer, so a routine that receives [ShaderCode& out] is
    modelled by the sequence of writes it appends, in order; the finished
    buffer of [GenerateGeometryShaderCode] is the sequence appended to the
    empty buffer it starts from. *)

From Stdlib Require Import ZArith List String Ascii Bool Lia DecimalString.
From Stdlib Require Import Floats.SpecFloat.
Import ListNotations.

Open Scope string_scope.
Open Scope Z_scope.

(** ** Text formatting *)

Definition tab : ascii := ascii_of_nat 9.
Definition newline : ascii := ascii_of_nat 10.

(** An argument of a formatted write. *)
Inductive Arg :=
| S_ (s : string)
| D_ (n : Z).

(** [%d] of an integer. *)
Definition dec (n : Z) : string := NilZero.string_of_int (Z.to_int n).

Definition show (conv : ascii) (a : Arg) : string :=
  match a with
  | S_ s => if (conv =? "s")%char then s else ""
  | D_ n => if (conv =? "d")%char then dec n else ""
  end.

Definition escape (e : ascii) : ascii :=
  if (e =? "t")%char then tab
  else if (e =? "n")%char then newline
  else e.

(** A C string literal used as a printf format: the escapes [\t] and [\n] of
    the literal, and the conversions [%s] and [%d] taking the arguments in
    order. *)
Fixpoint printf (fmt : string) (args : list Arg) : string :=
  match fmt with
  | EmptyString => EmptyString
  | String c rest =>
      if (c =? "\")%char then
        match rest with
        | String e rest' => String (escape e) (printf rest' args)
        | EmptyString => String c EmptyString
        end
      else if (c =? "%")%char then
        match rest with
        | String conv rest' =>
            match args with
            | a :: args' => show conv a ++ printf rest' args'
            | [] => printf rest' []
            end
        | EmptyString => String c EmptyString
        end
      else String c (printf rest args)
  end.

(** ** Types of the headers *)

(** [enum class APIType]. *)
Inductive APIType := OpenGL | D3D | Vulkan.

Definition APIType_eqb (a b : APIType) : bool :=
  match a, b with
  | OpenGL, OpenGL | D3D, D3D | Vulkan, Vulkan => true
  | _, _ => false
  end.

(** [enum class PrimitiveType : u32], in the order the tables
    [primitives_ogl] and [primitives_d3d] index it. *)
Inductive PrimitiveType := Points | Lines | Triangles | TriangleStrip.

(** [static_cast<u32>(primitive)]. *)
Definition to_u32 (p : PrimitiveType) : Z :=
  match p with
  | Points => 0
  | Lines => 1
  | Triangles => 2
  | TriangleStrip => 3
  end.

(** Arithmetic on [unsigned]. *)
Definition wrap32 (x : Z) : Z := x mod 2 ^ 32.

(** The members of [geometry_shader_uid_data] the source reads and writes.
    The storage is zero-filled before the two members are set, so two keys
    have the same bytes exactly when both members agree. *)
Record geometry_shader_uid_data := mk_uid {
  numTexGens : Z;
  primitive_type : Z
}.

Definition GeometryShaderUid := geometry_shader_uid_data.

(** The members of [ShaderHostConfig] the source reads. *)
Record ShaderHostConfig := mk_host {
  wireframe : bool;
  msaa : bool;
  ssaa : bool;
  stereo : bool;
  vr : bool;
  more_layers : bool;
  backend_gs_instancing : bool;
  backend_depth_clamp : bool
}.

(** The members of the global [g_ActiveConfig] the source reads. *)
Record VideoConfig := mk_config {
  iStereoMode : Z;
  bWireFrame : bool;
  bEnablePixelLighting : bool;
  bSupportsPrimitiveRestart : bool;
  bSupportsBindingLayout : bool
}.

(** The process-wide state the source reaches without receiving it as an
    argument: [g_ActiveConfig], the driver-bug table behind
    [DriverDetails::HasBug] and the register [xfmem.numTexGen.numTexGens]. *)
Record Globals := mk_globals {
  g_ActiveConfig : VideoConfig;
  HasBug_BROKEN_CLIP_DISTANCE : bool;
  xfmem_numTexGens : Z
}.

(** ** The shader source buffer *)

(** A qualifier handed to the member-declaration helpers: a literal, or the
    result of [GetInterpolationQualifier(msaa, ssaa, in_glsl_interface_block, in)]. *)
Inductive Qualifier :=
| QLiteral (s : string)
| QInterpolation (msaa ssaa in_glsl_interface_block is_in : bool).

(** One append to the buffer.  A write of this file is kept with its
    formatted text; a call into a helper of the absent headers, or a write
    of the absent constant [s_lighting_struct], is kept by name with the
    arguments it receives. *)
Inductive Emit :=
| Text (s : string)
| LightingStruct
| VSOutputMembers (api : APIType) (texgens : Z) (per_pixel_lighting : bool)
                  (qualifier : Qualifier)
| AssignMembers (a b : string) (texgens : Z) (per_pixel_lighting : bool)
| OutputMember (api : APIType) (qualifier : Qualifier) (type name : string)
               (var_index : Z) (semantic : string) (semantic_index : option Z).

Definition ShaderCode := list Emit.

(** [out.Write(fmt, args...)]. *)
Definition Write (fmt : string) (args : list Arg) : ShaderCode :=
  [Text (printf fmt args)].

Definition GenerateVSOutputMembers (api : APIType) (texgens : Z)
  (per_pixel_lighting : bool) (qualifier : Qualifier) : ShaderCode :=
  [VSOutputMembers api texgens per_pixel_lighting qualifier].

Definition AssignVSOutputMembers (a b : string) (texgens : Z)
  (per_pixel_lighting : bool) : ShaderCode :=
  [AssignMembers a b texgens per_pixel_lighting].

Definition DefineOutputMember (api : APIType) (qualifier : Qualifier)
  (type name : string) (var_index : Z) (semantic : string)
  (semantic_index : option Z) : ShaderCode :=
  [OutputMember api qualifier type name var_index semantic semantic_index].

(** Sequencing of two pieces of generation. *)
Notation "a ;; b" := (@app Emit a b) (at level 61, right associativity).

(** Nothing written. *)
Definition skip : ShaderCode := [].

(** [for (unsigned int i = 0; i < n; ++i) body(i)]. *)
Definition for_u32 (n : Z) (body : Z -> ShaderCode) : ShaderCode :=
  flat_map body (map Z.of_nat (seq 0 (Z.to_nat n))).

(** [ApiType == APIType::OpenGL || ApiType == APIType::Vulkan]. *)
Definition is_glsl (api : APIType) : bool :=
  APIType_eqb api OpenGL || APIType_eqb api Vulkan.

Definition primitives_ogl : list string :=
  ["points"; "lines"; "triangles"; "triangles"].
Definition primitives_d3d : list string :=
  ["point"; "line"; "triangle"; "triangle"].

(** [table[index]]; the arrays have four entries, one per primitive type. *)
Definition at_index (table : list string) (index : Z) : string :=
  nth (Z.to_nat index) table "".

(** ** geometry_shader_uid_data::IsPassthrough *)

Definition IsPassthrough (g : Globals) (uid : geometry_shader_uid_data) : bool :=
  let stereo := iStereoMode (g_ActiveConfig g) >? 0 in
  let wireframe := bWireFrame (g_ActiveConfig g) in
  (primitive_type uid >=? to_u32 Triangles) && negb stereo && negb wireframe.

(** ** GetGeometryShaderUid *)

Definition GetGeometryShaderUid (g : Globals) (primitive : PrimitiveType)
  : GeometryShaderUid :=
  {| numTexGens := xfmem_numTexGens g; primitive_type := to_u32 primitive |}.

(** ** The generators *)

Section Generators.

(** The names of the three uniforms, string macros of an absent header. *)
Variables I_STEREOPARAMS I_LINEPTPARAMS I_TEXOFFSET : string.

Definition EmitVertex (host_config : ShaderHostConfig)
  (uid_data : geometry_shader_uid_data) (vertex : string) (ApiType : APIType)
  (wireframe pixel_lighting first_vertex : bool) : ShaderCode :=
  (if wireframe && first_vertex
   then Write "\tif (i == 0) first = %s;\n" [S_ vertex]
   else skip) ;;
  (if APIType_eqb ApiType OpenGL then
     Write "\tgl_Position = %s.pos;\n" [S_ vertex] ;;
     (if backend_depth_clamp host_config then
        Write "\tgl_ClipDistance[0] = %s.clipDist0;\n" [S_ vertex] ;;
        Write "\tgl_ClipDistance[1] = %s.clipDist1;\n" [S_ vertex]
      else skip) ;;
     AssignVSOutputMembers "ps" vertex (numTexGens uid_data) pixel_lighting
   else if APIType_eqb ApiType Vulkan then
     Write "\tgl_Position = %s.pos;\n" [S_ vertex] ;;
     Write "\tgl_Position.y = -gl_Position.y;\n" [] ;;
     AssignVSOutputMembers "ps" vertex (numTexGens uid_data) pixel_lighting
   else
     Write "\tps.o = %s;\n" [S_ vertex]) ;;
  (if is_glsl ApiType
   then Write "\tEmitVertex();\n" []
   else Write "\toutput.Append(ps);\n" []).

Definition EndPrimitive (host_config : ShaderHostConfig)
  (uid_data : geometry_shader_uid_data) (ApiType : APIType)
  (wireframe pixel_lighting : bool) : ShaderCode :=
  (if wireframe
   then EmitVertex host_config uid_data "first" ApiType wireframe pixel_lighting false
   else skip) ;;
  (if is_glsl ApiType
   then Write "\tEndPrimitive();\n" []
   else Write "\toutput.RestartStrip();\n" []).

(** The locals computed at the head of [GenerateGeometryShaderCode]. *)
Definition vertex_in_of (primitive_type_index : Z) : Z :=
  Z.min (wrap32 (primitive_type_index + 1)) 3.

Definition vertex_out_of (primitive_type_index : Z) (wireframe : bool) : Z :=
  let vertex_out := if primitive_type_index =? to_u32 TriangleStrip then 3 else 4 in
  if wireframe then wrap32 (vertex_out + 1) else vertex_out.

Definition layers_of (host_config : ShaderHostConfig) : Z :=
  wrap32 (Z.b2z (more_layers host_config) * 2 + Z.b2z (stereo host_config) + 1).

(** The head of the output: layout parameters, lighting structure, uniform
    block, interface blocks and the opening of [main]. *)
Definition gs_declarations (g : Globals) (ApiType : APIType)
  (host_config : ShaderHostConfig) (uid_data : geometry_shader_uid_data)
  : ShaderCode :=
  let wireframe := wireframe host_config in
  let pixel_lighting := bEnablePixelLighting (g_ActiveConfig g) in
  let msaa := msaa host_config in
  let ssaa := ssaa host_config in
  let stereo := stereo host_config in
  let primitive_type_index := primitive_type uid_data in
  let vertex_in := vertex_in_of primitive_type_index in
  let vertex_out := vertex_out_of primitive_type_index wireframe in
  let layers := layers_of host_config in
  (if is_glsl ApiType then
     if backend_gs_instancing host_config then
       Write "layout(%s, invocations = %d) in;\n"
             [S_ (at_index primitives_ogl primitive_type_index); D_ layers] ;;
       Write "layout(%s_strip, max_vertices = %d) out;\n"
             [S_ (if wireframe then "line" else "triangle"); D_ vertex_out]
     else
       Write "layout(%s) in;\n" [S_ (at_index primitives_ogl primitive_type_index)] ;;
       Write "layout(%s_strip, max_vertices = %d) out;\n"
             [S_ (if wireframe then "line" else "triangle");
              D_ (wrap32 (vertex_out * layers))]
   else skip) ;;
  [LightingStruct] ;;
  (if is_glsl ApiType
   then Write "UBO_BINDING(std140, 3) uniform GSBlock {\n" []
   else Write "cbuffer GSBlock {\n" []) ;;
  Write ("\tfloat4 " ++ I_STEREOPARAMS ++ ";\n" ++
         "\tfloat4 " ++ I_LINEPTPARAMS ++ ";\n" ++
         "\tint4 " ++ I_TEXOFFSET ++ ";\n" ++
         "};\n") [] ;;
  Write "struct VS_OUTPUT {\n" [] ;;
  GenerateVSOutputMembers ApiType (numTexGens uid_data) pixel_lighting (QLiteral "") ;;
  Write "};\n" [] ;;
  (if is_glsl ApiType then
     (if backend_gs_instancing host_config
      then Write "#define InstanceID gl_InvocationID\n" []
      else skip) ;;
     Write "VARYING_LOCATION(0) in VertexData {\n" [] ;;
     GenerateVSOutputMembers ApiType (numTexGens uid_data) pixel_lighting
                             (QInterpolation msaa ssaa true true) ;;
     Write "} vs[%d];\n" [D_ vertex_in] ;;
     Write "VARYING_LOCATION(0) out VertexData {\n" [] ;;
     GenerateVSOutputMembers ApiType (numTexGens uid_data) pixel_lighting
                             (QInterpolation msaa ssaa true false) ;;
     (if stereo || more_layers host_config
      then Write "\tflat int layer;\n" []
      else skip) ;;
     Write "} ps;\n" [] ;;
     Write "void main()\n{\n" []
   else
     Write "struct VertexData {\n" [] ;;
     Write "\tVS_OUTPUT o;\n" [] ;;
     (if stereo || more_layers host_config
      then Write "\tuint layer : SV_RenderTargetArrayIndex;\n" []
      else skip) ;;
     Write "};\n" [] ;;
     (if backend_gs_instancing host_config then
        Write "[maxvertexcount(%d)]\n[instance(%d)]\n" [D_ vertex_out; D_ layers] ;;
        Write ("void main(%s VS_OUTPUT o[%d], inout %sStream<VertexData> output, in uint " ++
               "InstanceID : SV_GSInstanceID)\n{\n")
              [S_ (at_index primitives_d3d primitive_type_index); D_ vertex_in;
               S_ (if wireframe then "Line" else "Triangle")]
      else
        Write "[maxvertexcount(%d)]\n" [D_ (wrap32 (vertex_out * layers))] ;;
        Write "void main(%s VS_OUTPUT o[%d], inout %sStream<VertexData> output)\n{\n"
              [S_ (at_index primitives_d3d primitive_type_index); D_ vertex_in;
               S_ (if wireframe then "Line" else "Triangle")]) ;;
     Write "\tVertexData ps;\n" []).

(** The statements written once before the loops: the endpoints and the
    cap offset of a line, the centre and the corner offset of a point. *)
Definition gs_primitive_setup (g : Globals) (ApiType : APIType)
  (uid_data : geometry_shader_uid_data) : ShaderCode :=
  let pixel_lighting := bEnablePixelLighting (g_ActiveConfig g) in
  let primitive_type := primitive_type uid_data in
  if primitive_type =? to_u32 Lines then
    (if is_glsl ApiType then
       Write "\tVS_OUTPUT start, end;\n" [] ;;
       AssignVSOutputMembers "start" "vs[0]" (numTexGens uid_data) pixel_lighting ;;
       AssignVSOutputMembers "end" "vs[1]" (numTexGens uid_data) pixel_lighting
     else
       Write "\tVS_OUTPUT start = o[0];\n" [] ;;
       Write "\tVS_OUTPUT end = o[1];\n" []) ;;
    Write ("\tfloat2 offset;\n" ++
           "\tfloat2 to = abs(end.pos.xy / end.pos.w - start.pos.xy / start.pos.w);\n" ++
           "\tif (" ++ I_LINEPTPARAMS ++ ".y * to.y > " ++ I_LINEPTPARAMS ++ ".x * to.x) {\n" ++
           "\t\toffset = float2(" ++ I_LINEPTPARAMS ++ ".z / " ++ I_LINEPTPARAMS ++ ".x, 0);\n" ++
           "\t} else {\n" ++
           "\t\toffset = float2(0, -" ++ I_LINEPTPARAMS ++ ".z / " ++ I_LINEPTPARAMS ++ ".y);\n" ++
           "\t}\n") []
  else if primitive_type =? to_u32 Points then
    (if is_glsl ApiType then
       Write "\tVS_OUTPUT center;\n" [] ;;
       AssignVSOutputMembers "center" "vs[0]" (numTexGens uid_data) pixel_lighting
     else
       Write "\tVS_OUTPUT center = o[0];\n" []) ;;
    Write ("\tfloat2 offset = float2(" ++ I_LINEPTPARAMS ++ ".w / " ++ I_LINEPTPARAMS ++
           ".x, -" ++ I_LINEPTPARAMS ++ ".w / " ++ I_LINEPTPARAMS ++ ".y) * center.pos.w;\n") []
  else skip.

(** The opening of the layer loop, or the binding of [eye] to the
    invocation. *)
Definition gs_eye_open (host_config : ShaderHostConfig) : ShaderCode :=
  if stereo host_config || more_layers host_config then
    if backend_gs_instancing host_config
    then Write "\tint eye = InstanceID;\n" []
    else Write "\tfor (int eye = 0; eye < %d; ++eye) {\n" [D_ (layers_of host_config)]
  else skip.

(** The head of the body of the loop over the input vertices: the copy of
    the input vertex and the selection of the output layer. *)
Definition gs_vertex_fetch (g : Globals) (ApiType : APIType)
  (host_config : ShaderHostConfig) (uid_data : geometry_shader_uid_data)
  : ShaderCode :=
  let pixel_lighting := bEnablePixelLighting (g_ActiveConfig g) in
  let stereo := stereo host_config in
  (if is_glsl ApiType then
     Write "\tVS_OUTPUT f;\n" [] ;;
     AssignVSOutputMembers "f" "vs[i]" (numTexGens uid_data) pixel_lighting ;;
     (if backend_depth_clamp host_config && HasBug_BROKEN_CLIP_DISTANCE g then
        Write "\tf.clipDist0 = gl_in[i].gl_ClipDistance[0];\n" [] ;;
        Write "\tf.clipDist1 = gl_in[i].gl_ClipDistance[1];\n" []
      else skip)
   else
     Write "\tVS_OUTPUT f = o[i];\n" []) ;;
  (if vr host_config then
     Write "\tps.layer = eye;\n" [] ;;
     (if APIType_eqb ApiType OpenGL then Write "\tgl_Layer = eye;\n" [] else skip) ;;
     Write ("\tf.clipPos.x += " ++ I_STEREOPARAMS ++ "[eye] - " ++ I_STEREOPARAMS ++
            "[eye+2] * f.clipPos.w;\n") [] ;;
     Write ("\tf.pos.x += " ++ I_STEREOPARAMS ++ "[eye] - " ++ I_STEREOPARAMS ++
            "[eye+2] * f.pos.w;\n") []
   else if stereo || more_layers host_config then
     Write "\tps.layer = eye;\n" [] ;;
     (if is_glsl ApiType then Write "\tgl_Layer = eye;\n" [] else skip) ;;
     Write ("\tfloat hoffset = (eye == 0) ? " ++ I_STEREOPARAMS ++ ".x : " ++
            I_STEREOPARAMS ++ ".y;\n") [] ;;
     Write ("\tf.pos.x += hoffset * (f.pos.w - " ++ I_STEREOPARAMS ++ ".z);\n") []
   else skip).

(** The per-texgen loop of the line path. *)
Definition gs_line_nudges (numTexGens : Z) : ShaderCode :=
  for_u32 numTexGens (fun i =>
    Write ("\tif (((" ++ I_TEXOFFSET ++ "[0] >> %d) & 0x1) != 0)\n") [D_ i] ;;
    Write "\t\tr.tex%d.x += texOffset;\n" [D_ i]).

(** The per-texgen loop of the point path. *)
Definition gs_point_nudges (numTexGens : Z) : ShaderCode :=
  for_u32 numTexGens (fun i =>
    Write ("\tif (((" ++ I_TEXOFFSET ++ "[1] >> %d) & 0x1) != 0) {\n") [D_ i] ;;
    Write "\t\tul.tex%d.xy += float2(0,1) * texOffset;\n" [D_ i] ;;
    Write "\t\tur.tex%d.xy += texOffset;\n" [D_ i] ;;
    Write "\t\tlr.tex%d.xy += float2(1,0) * texOffset;\n" [D_ i] ;;
    Write "\t}\n" []).

(** The rest of the body of the loop over the input vertices: expansion
    and emission. *)
Definition gs_expand (g : Globals) (ApiType : APIType)
  (host_config : ShaderHostConfig) (uid_data : geometry_shader_uid_data)
  : ShaderCode :=
  let wireframe := wireframe host_config in
  let pixel_lighting := bEnablePixelLighting (g_ActiveConfig g) in
  let primitive_type := primitive_type uid_data in
  if primitive_type =? to_u32 Lines then
    Write ("\tVS_OUTPUT l = f;\n" ++
           "\tVS_OUTPUT r = f;\n") [] ;;
    Write ("\tl.pos.xy -= offset * l.pos.w;\n" ++
           "\tr.pos.xy += offset * r.pos.w;\n") [] ;;
    Write ("\tif (" ++ I_TEXOFFSET ++ "[2] != 0) {\n") [] ;;
    Write ("\tfloat texOffset = 1.0 / float(" ++ I_TEXOFFSET ++ "[2]);\n") [] ;;
    gs_line_nudges (numTexGens uid_data) ;;
    Write "\t}\n" [] ;;
    EmitVertex host_config uid_data "l" ApiType wireframe pixel_lighting true ;;
    EmitVertex host_config uid_data "r" ApiType wireframe pixel_lighting false
  else if primitive_type =? to_u32 Points then
    Write ("\tVS_OUTPUT ll = f;\n" ++
           "\tVS_OUTPUT lr = f;\n" ++
           "\tVS_OUTPUT ul = f;\n" ++
           "\tVS_OUTPUT ur = f;\n") [] ;;
    Write ("\tll.pos.xy += float2(-1,-1) * offset;\n" ++
           "\tlr.pos.xy += float2(1,-1) * offset;\n" ++
           "\tul.pos.xy += float2(-1,1) * offset;\n" ++
           "\tur.pos.xy += offset;\n") [] ;;
    Write ("\tif (" ++ I_TEXOFFSET ++ "[3] != 0) {\n") [] ;;
    Write ("\tfloat2 texOffset = float2(1.0 / float(" ++ I_TEXOFFSET ++
           "[3]), 1.0 / float(" ++ I_TEXOFFSET ++ "[3]));\n") [] ;;
    gs_point_nudges (numTexGens uid_data) ;;
    Write "\t}\n" [] ;;
    EmitVertex host_config uid_data "ll" ApiType wireframe pixel_lighting true ;;
    EmitVertex host_config uid_data "lr" ApiType wireframe pixel_lighting false ;;
    EmitVertex host_config uid_data "ul" ApiType wireframe pixel_lighting false ;;
    EmitVertex host_config uid_data "ur" ApiType wireframe pixel_lighting false
  else
    EmitVertex host_config uid_data "f" ApiType wireframe pixel_lighting true.

(** The tail of the output, from the end of the loop over the input
    vertices. *)
Definition gs_close (g : Globals) (ApiType : APIType)
  (host_config : ShaderHostConfig) (uid_data : geometry_shader_uid_data)
  : ShaderCode :=
  let wireframe := wireframe host_config in
  let pixel_lighting := bEnablePixelLighting (g_ActiveConfig g) in
  Write "\t}\n" [] ;;
  EndPrimitive host_config uid_data ApiType wireframe pixel_lighting ;;
  (if (stereo host_config || more_layers host_config)
      && negb (backend_gs_instancing host_config)
   then Write "\t}\n" []
   else skip) ;;
  Write "}\n" [].

Definition GenerateGeometryShaderCode (g : Globals) (ApiType : APIType)
  (host_config : ShaderHostConfig) (uid_data : geometry_shader_uid_data)
  : ShaderCode :=
  gs_declarations g ApiType host_config uid_data ;;
  gs_primitive_setup g ApiType uid_data ;;
  gs_eye_open host_config ;;
  (if wireframe host_config then Write "\tVS_OUTPUT first;\n" [] else skip) ;;
  Write "\tfor (int i = 0; i < %d; ++i) {\n" [D_ (vertex_in_of (primitive_type uid_data))] ;;
  gs_vertex_fetch g ApiType host_config uid_data ;;
  gs_expand g ApiType host_config uid_data ;;
  gs_close g ApiType host_config uid_data.

(** ** GenerateAvatarGeometryShader, at [T = ShaderCode] *)

(** The three members of the avatar vertex, declared with [qualifier]. *)
Definition avatar_members (ApiType : APIType) (qualifier : Qualifier) : ShaderCode :=
  DefineOutputMember ApiType qualifier "float4" "pos" (-1) "POSITION" None ;;
  DefineOutputMember ApiType qualifier "float4" "colors_" 0 "COLOR" (Some 0) ;;
  DefineOutputMember ApiType qualifier "float3" "tex" 0 "TEXCOORD" (Some 0).

(** The three member copies from [b] to [a]. *)
Definition avatar_assign (a b : string) : ShaderCode :=
  Write "\t%s.pos = %s.pos;\n" [S_ a; S_ b] ;;
  Write "\t%s.colors_0 = %s.colors_0;\n" [S_ a; S_ b] ;;
  Write "\t%s.tex%d = %s.tex%d;\n" [S_ a; D_ 0; S_ b; D_ 0].

Definition avatar_declarations (g : Globals) (primitive_type_index : Z)
  (ApiType : APIType) (host_config : ShaderHostConfig) : ShaderCode :=
  let wireframe := wireframe host_config in
  let stereo := stereo host_config in
  let binding := bSupportsBindingLayout (g_ActiveConfig g) in
  let vertex_in := vertex_in_of primitive_type_index in
  let vertex_out := vertex_out_of primitive_type_index wireframe in
  let layers := layers_of host_config in
  (if APIType_eqb ApiType OpenGL then
     if backend_gs_instancing host_config then
       Write "layout(%s, invocations = %d) in;\n"
             [S_ (at_index primitives_ogl primitive_type_index); D_ layers] ;;
       Write "layout(%s_strip, max_vertices = %d) out;\n"
             [S_ (if wireframe then "line" else "triangle"); D_ vertex_out]
     else
       Write "layout(%s) in;\n" [S_ (at_index primitives_ogl primitive_type_index)] ;;
       Write "layout(%s_strip, max_vertices = %d) out;\n"
             [S_ (if wireframe then "line" else "triangle");
              D_ (wrap32 (vertex_out * layers))]
   else skip) ;;
  (if APIType_eqb ApiType OpenGL
   then Write "layout(std140%s) uniform GSBlock {\n"
              [S_ (if binding then ", binding = 3" else "")]
   else Write "cbuffer GSBlock {\n" []) ;;
  Write ("\tfloat4 " ++ I_STEREOPARAMS ++ ";\n" ++
         "\tfloat4 " ++ I_LINEPTPARAMS ++ ";\n" ++
         "\tint4 " ++ I_TEXOFFSET ++ ";\n" ++
         "};\n") [] ;;
  Write "struct VS_OUTPUT {\n" [] ;;
  avatar_members ApiType (QLiteral "") ;;
  Write "};\n" [] ;;
  (if APIType_eqb ApiType OpenGL then
     (if backend_gs_instancing host_config
      then Write "#define InstanceID gl_InvocationID\n" []
      else skip) ;;
     Write "in VertexData {\n" [] ;;
     avatar_members ApiType (QLiteral (if binding then "centroid" else "centroid in")) ;;
     Write "} vs[%d];\n" [D_ vertex_in] ;;
     Write "out VertexData {\n" [] ;;
     avatar_members ApiType (QLiteral (if binding then "centroid" else "centroid out")) ;;
     (if stereo || more_layers host_config
      then Write "\tflat int layer;\n" []
      else skip) ;;
     Write "} ps;\n" [] ;;
     Write "void main()\n{\n" []
   else
     Write "struct VertexData {\n" [] ;;
     Write "\tVS_OUTPUT o;\n" [] ;;
     (if stereo || more_layers host_config
      then Write "\tuint layer : SV_RenderTargetArrayIndex;\n" []
      else skip) ;;
     Write "};\n" [] ;;
     (if backend_gs_instancing host_config then
        Write "[maxvertexcount(%d)]\n[instance(%d)]\n" [D_ vertex_out; D_ layers] ;;
        Write ("void main(%s VS_OUTPUT o[%d], inout %sStream<VertexData> output, in uint " ++
               "InstanceID : SV_GSInstanceID)\n{\n")
              [S_ (at_index primitives_d3d primitive_type_index); D_ vertex_in;
               S_ (if wireframe then "Line" else "Triangle")]
      else
        Write "[maxvertexcount(%d)]\n" [D_ (wrap32 (vertex_out * layers))] ;;
        Write "void main(%s VS_OUTPUT o[%d], inout %sStream<VertexData> output)\n{\n"
              [S_ (at_index primitives_d3d primitive_type_index); D_ vertex_in;
               S_ (if wireframe then "Line" else "Triangle")]) ;;
     Write "\tVertexData ps;\n" []).

Definition avatar_primitive_setup (primitive_type_index : Z) (ApiType : APIType)
  : ShaderCode :=
  if primitive_type_index =? to_u32 Lines then
    (if APIType_eqb ApiType OpenGL then
       Write "\tVS_OUTPUT start, end;\n" [] ;;
       avatar_assign "start" "vs[0]" ;;
       avatar_assign "end" "vs[1]"
     else
       Write "\tVS_OUTPUT start = o[0];\n" [] ;;
       Write "\tVS_OUTPUT end = o[1];\n" []) ;;
    Write ("\tfloat2 offset;\n" ++
           "\tfloat2 to = abs(end.pos.xy - start.pos.xy);\n" ++
           "\tif (" ++ I_LINEPTPARAMS ++ ".y * to.y > " ++ I_LINEPTPARAMS ++ ".x * to.x) {\n" ++
           "\t\toffset = float2(" ++ I_LINEPTPARAMS ++ ".z / " ++ I_LINEPTPARAMS ++ ".x, 0);\n" ++
           "\t} else {\n" ++
           "\t\toffset = float2(0, -" ++ I_LINEPTPARAMS ++ ".z / " ++ I_LINEPTPARAMS ++ ".y);\n" ++
           "\t}\n") []
  else if primitive_type_index =? to_u32 Points then
    (if APIType_eqb ApiType OpenGL then
       Write "\tVS_OUTPUT center;\n" [] ;;
       avatar_assign "center" "vs[0]"
     else
       Write "\tVS_OUTPUT center = o[0];\n" []) ;;
    Write ("\tfloat2 offset = float2(" ++ I_LINEPTPARAMS ++ ".w / " ++ I_LINEPTPARAMS ++
           ".x, -" ++ I_LINEPTPARAMS ++ ".w / " ++ I_LINEPTPARAMS ++ ".y) * center.pos.w;\n") []
  else skip.

Definition avatar_eye_open (host_config : ShaderHostConfig) : ShaderCode :=
  if stereo host_config || more_layers host_config then
    if backend_gs_instancing host_config
    then Write "\tint eye = InstanceID;\n" []
    else Write "\tfor (int eye = 0; eye < 2; ++eye) {\n" []
  else skip.

Definition avatar_vertex_fetch (ApiType : APIType) (host_config : ShaderHostConfig)
  : ShaderCode :=
  (if APIType_eqb ApiType OpenGL then
     Write "\tVS_OUTPUT f;\n" [] ;;
     avatar_assign "f" "vs[i]"
   else
     Write "\tVS_OUTPUT f = o[i];\n" []) ;;
  (if vr host_config then
     Write "\tps.layer = eye;\n" [] ;;
     (if APIType_eqb ApiType OpenGL then Write "\tgl_Layer = eye;\n" [] else skip) ;;
     Write ("\tf.pos.x += " ++ I_STEREOPARAMS ++ "[eye] - " ++ I_STEREOPARAMS ++
            "[eye+2] * f.pos.w;\n") []
   else if stereo host_config || more_layers host_config then
     Write "\tps.layer = eye;\n" [] ;;
     (if APIType_eqb ApiType OpenGL then Write "\tgl_Layer = eye;\n" [] else skip) ;;
     Write ("\tf.pos.x += " ++ I_STEREOPARAMS ++ "[eye] * (f.pos.w - " ++
            I_STEREOPARAMS ++ "[2]);\n") []
   else skip).

(** The per-texgen loop of the avatar point path, with its constant bound. *)
Definition avatar_point_nudges : ShaderCode :=
  for_u32 1 (fun i =>
    Write ("\tif (((" ++ I_TEXOFFSET ++ "[1] >> %d) & 0x1) != 0) {\n") [D_ i] ;;
    Write "\t\tll.tex%d.xy += float2(0,1) * texOffset;\n" [D_ i] ;;
    Write "\t\tlr.tex%d.xy += texOffset;\n" [D_ i] ;;
    Write "\t\tur.tex%d.xy += float2(1,0) * texOffset;\n" [D_ i] ;;
    Write "\t}\n" []).

Definition avatar_expand (g : Globals) (ApiType : APIType)
  (host_config : ShaderHostConfig) (uid_data : geometry_shader_uid_data)
  : ShaderCode :=
  let wireframe := wireframe host_config in
  let pixel_lighting := bEnablePixelLighting (g_ActiveConfig g) in
  let primitive_type := primitive_type uid_data in
  if primitive_type =? to_u32 Lines then
    Write ("\tVS_OUTPUT l = f;\n" ++
           "\tVS_OUTPUT r = f;\n") [] ;;
    Write ("\tl.pos.xy -= offset * l.pos.w;\n" ++
           "\tr.pos.xy += offset * r.pos.w;\n") [] ;;
    Write ("\tif (" ++ I_TEXOFFSET ++ "[2] != 0) {\n") [] ;;
    Write ("\tfloat texOffset = 1.0 / float(" ++ I_TEXOFFSET ++ "[2]);\n") [] ;;
    gs_line_nudges (numTexGens uid_data) ;;
    Write "\t}\n" [] ;;
    EmitVertex host_config uid_data "l" ApiType wireframe pixel_lighting true ;;
    EmitVertex host_config uid_data "r" ApiType wireframe pixel_lighting false
  else if primitive_type =? to_u32 Points then
    Write ("\tVS_OUTPUT ll = f;\n" ++
           "\tVS_OUTPUT lr = f;\n" ++
           "\tVS_OUTPUT ul = f;\n" ++
           "\tVS_OUTPUT ur = f;\n") [] ;;
    Write ("\tll.pos.xy += float2(-1,-1) * offset;\n" ++
           "\tlr.pos.xy += float2(1,-1) * offset;\n" ++
           "\tul.pos.xy += float2(-1,1) * offset;\n" ++
           "\tur.pos.xy += offset;\n") [] ;;
    Write ("\tif (" ++ I_TEXOFFSET ++ "[3] != 0) {\n") [] ;;
    Write ("\tfloat2 texOffset = float2(1.0 / float(" ++ I_TEXOFFSET ++
           "[3]), 1.0 / float(" ++ I_TEXOFFSET ++ "[3]));\n") [] ;;
    avatar_point_nudges ;;
    Write "\t}\n" [] ;;
    EmitVertex host_config uid_data "ll" ApiType wireframe pixel_lighting true ;;
    EmitVertex host_config uid_data "lr" ApiType wireframe pixel_lighting false ;;
    EmitVertex host_config uid_data "ul" ApiType wireframe pixel_lighting false ;;
    EmitVertex host_config uid_data "ur" ApiType wireframe pixel_lighting false
  else
    EmitVertex host_config uid_data "f" ApiType wireframe pixel_lighting true.

Definition GenerateAvatarGeometryShader (g : Globals) (primitive_type : PrimitiveType)
  (ApiType : APIType) (host_config : ShaderHostConfig) : ShaderCode :=
  let primitive_type_index := to_u32 primitive_type in
  (* the local key: [primitive_type] is stored at the head of the function,
     [numTexGens = 1] before anything reads it *)
  let uid_data := {| numTexGens := 1; primitive_type := primitive_type_index |} in
  avatar_declarations g primitive_type_index ApiType host_config ;;
  avatar_primitive_setup primitive_type_index ApiType ;;
  avatar_eye_open host_config ;;
  (if wireframe host_config then Write "\tVS_OUTPUT first;\n" [] else skip) ;;
  Write "\tfor (int i = 0; i < %d; ++i) {\n" [D_ (vertex_in_of primitive_type_index)] ;;
  avatar_vertex_fetch ApiType host_config ;;
  avatar_expand g ApiType host_config uid_data ;;
  gs_close g ApiType host_config uid_data.

Definition GenerateAvatarGeometryShaderCode (g : Globals) (primitive_type : PrimitiveType)
  (ApiType : APIType) (host_config : ShaderHostConfig) : ShaderCode :=
  GenerateAvatarGeometryShader g primitive_type ApiType host_config.

End Generators.

(** ** EnumerateGeometryShaderUids *)

Section Enumerate.

Context {St : Type}.

(** The callback, with the state of its closure passed through. *)
Variable callback : GeometryShaderUid -> St -> St.

(** [for (u32 texgens = 0; texgens <= 8; texgens++)], on the key being
    filled in and the state of the callback. *)
Definition enumerate_texgens (st : GeometryShaderUid * St) : GeometryShaderUid * St :=
  fold_left
    (fun (st : GeometryShaderUid * St) (texgens : Z) =>
       let uid := {| numTexGens := texgens; primitive_type := primitive_type (fst st) |} in
       (uid, callback uid (snd st)))
    (map Z.of_nat (seq 0 (Z.to_nat (8 + 1)))) st.

Definition EnumerateGeometryShaderUids (g : Globals) (s : St) : St :=
  let uid := {| numTexGens := 0; primitive_type := 0 |} in
  let primitive_lut :=
    [ if bSupportsPrimitiveRestart (g_ActiveConfig g) then TriangleStrip else Triangles;
      Lines; Points ] in
  snd (fold_left
         (fun (st : GeometryShaderUid * St) (primitive : PrimitiveType) =>
            let guid := {| numTexGens := numTexGens (fst st);
                           primitive_type := to_u32 primitive |} in
            enumerate_texgens (guid, snd st))
         primitive_lut (uid, s)).

End Enumerate.

(** The keys handed to the callback, in order. *)
Definition enumerated (g : Globals) : list GeometryShaderUid :=
  EnumerateGeometryShaderUids (fun uid seen => (seen ++ [uid])%list) g [].

(** ** The text of a buffer *)

Section Rendering.

(** What the absent headers contribute to the text: the constant
    [s_lighting_struct] and, for each helper, the characters it appends as a
    function of the arguments it is called with. *)
Variable s_lighting_struct : string.
Variable GetInterpolationQualifier : bool -> bool -> bool -> bool -> string.
Variable VSOutputMembers_text : APIType -> Z -> bool -> string -> string.
Variable AssignMembers_text : string -> string -> Z -> bool -> string.
Variable OutputMember_text :
  APIType -> string -> string -> string -> Z -> string -> option Z -> string.

Definition qualifier_text (q : Qualifier) : string :=
  match q with
  | QLiteral s => s
  | QInterpolation m s b i => GetInterpolationQualifier m s b i
  end.

Definition emit_text (e : Emit) : string :=
  match e with
  | Text s => s
  | LightingStruct => s_lighting_struct
  | VSOutputMembers api n pl q => VSOutputMembers_text api n pl (qualifier_text q)
  | AssignMembers a b n pl => AssignMembers_text a b n pl
  | OutputMember api q ty name idx sem semidx =>
      OutputMember_text api (qualifier_text q) ty name idx sem semidx
  end.

(** The characters of the buffer, in the order they were appended. *)
Definition buffer_text (code : ShaderCode) : string :=
  String.concat "" (map emit_text code).

End Rendering.

(** ** Reading the buffer *)

(** [s] begins with the characters of [p]. *)
Fixpoint has_prefix (p s : string) : bool :=
  match p with
  | EmptyString => true
  | String a p' =>
      match s with
      | EmptyString => false
      | String b s' => (a =? b)%char && has_prefix p' s'
      end
  end.

(** The write [e] starts with the formatted literal [fmt]. *)
Definition starts_with (fmt : string) (e : Emit) : bool :=
  match e with
  | Text s => has_prefix (printf fmt []) s
  | _ => false
  end.

(** A texture-coordinate nudge: a statement two levels deep on a [tex]
    member of one of the vertices [r], [ul], [ur], [lr]. *)
Definition is_tex_nudge (e : Emit) : bool :=
  starts_with "\t\tr.tex" e || starts_with "\t\tul.tex" e
  || starts_with "\t\tur.tex" e || starts_with "\t\tlr.tex" e.

(** The append of a vertex to the output stream, in either dialect. *)
Definition is_vertex_emission (e : Emit) : bool :=
  starts_with "\tEmitVertex();\n" e || starts_with "\toutput.Append(ps);\n" e.

(** The head of a software loop over the layers. *)
Definition is_eye_loop (e : Emit) : bool :=
  starts_with "\tfor (int eye" e.

(** A write of [gl_ClipDistance] at a vertex emission. *)
Definition is_clip_write (e : Emit) : bool :=
  starts_with "\tgl_ClipDistance[" e.

(** The negation of [gl_Position.y]. *)
Definition is_y_flip (e : Emit) : bool :=
  starts_with "\tgl_Position.y = -gl_Position.y;\n" e.

(** The number of writes of [code] that satisfy [p]. *)
Definition count (p : Emit -> bool) (code : ShaderCode) : nat :=
  List.length (filter p code).

(** The number of vertices whose texture coordinates a primitive's path
    nudges. *)
Definition nudged_vertices (p : PrimitiveType) : nat :=
  match p with
  | Lines => 1
  | Points => 3
  | Triangles | TriangleStrip => 0
  end.

(** The vertex the expansion of a primitive emits first. *)
Definition first_emitted (p : PrimitiveType) : string :=
  match p with
  | Lines => "l"
  | Points => "ll"
  | Triangles | TriangleStrip => "f"
  end.

(** The OpenGL output rewritten at its vertex emissions: the flip of
    [gl_Position.y] added after each assignment of [gl_Position], the
    writes of [gl_ClipDistance] dropped, and the helpers called for
    Vulkan. *)
Definition vulkan_of_opengl_emit (e : Emit) : ShaderCode :=
  match e with
  | Text s =>
      if starts_with "\tgl_Position = " e
      then [Text s; Text (printf "\tgl_Position.y = -gl_Position.y;\n" [])]
      else if starts_with "\tgl_ClipDistance[" e then []
      else [e]
  | VSOutputMembers _ n pl q => [VSOutputMembers Vulkan n pl q]
  | _ => [e]
  end.

Definition vulkan_of_opengl (code : ShaderCode) : ShaderCode :=
  flat_map vulkan_of_opengl_emit code.

(** The flip alone: as [vulkan_of_opengl], but every other write is kept. *)
Definition add_flip_emit (e : Emit) : ShaderCode :=
  match e with
  | Text s =>
      if starts_with "\tgl_Position = " e
      then [Text s; Text (printf "\tgl_Position.y = -gl_Position.y;\n" [])]
      else [e]
  | VSOutputMembers _ n pl q => [VSOutputMembers Vulkan n pl q]
  | _ => [e]
  end.

Definition add_flip (code : ShaderCode) : ShaderCode :=
  flat_map add_flip_emit code.

(** The statement that remembers the first vertex of a wireframe outline,
    and the declaration of the variable it assigns. *)
Definition is_remember (e : Emit) : bool :=
  starts_with "\tif (i == 0) first = " e.
Definition is_first_decl (e : Emit) : bool :=
  starts_with "\tVS_OUTPUT first;" e.

(** The three places a layer shows in the output: the member of the output
    interface, the introduction of [eye] (bound to the invocation or
    counted by a loop) and the selection of the layer from [eye]. *)
Definition is_layer_member (e : Emit) : bool :=
  starts_with "\tflat int layer;" e || starts_with "\tuint layer : " e.
Definition is_eye_binding (e : Emit) : bool :=
  starts_with "\tint eye = InstanceID;" e.
Definition is_eye_intro (e : Emit) : bool :=
  is_eye_binding e || is_eye_loop e.
Definition is_layer_select (e : Emit) : bool :=
  starts_with "\tps.layer = eye;" e.

(** The assignment of the built-in [gl_Layer]. *)
Definition is_gl_layer (e : Emit) : bool :=
  starts_with "\tgl_Layer = eye;" e.

(** The copy of the clip distances of an input vertex, the workaround of
    the vertex fetch. *)
Definition is_clip_forward (e : Emit) : bool :=
  starts_with "\tf.clipDist" e.

(** Writes only the GLSL branches make, and writes only the HLSL branches
    make. *)
Definition is_glsl_write (e : Emit) : bool :=
  starts_with "layout(" e || starts_with "UBO_BINDING" e
  || starts_with "#define " e || starts_with "VARYING_LOCATION" e
  || starts_with "} vs[" e || starts_with "} ps;" e
  || starts_with "void main()" e || starts_with "\tgl_" e
  || starts_with "\tEmitVertex();" e || starts_with "\tEndPrimitive();" e
  || starts_with "\tf.clipDist" e.
Definition is_hlsl_write (e : Emit) : bool :=
  starts_with "cbuffer" e || starts_with "struct VertexData" e
  || starts_with "\tVS_OUTPUT o;" e || starts_with "\tuint layer" e
  || starts_with "[maxvertexcount(" e || starts_with "void main(point" e
  || starts_with "void main(line" e || starts_with "void main(triangle" e
  || starts_with "\tVertexData ps;" e || starts_with "\tps.o = " e
  || starts_with "\toutput." e.

(** Calls into the helpers of the absent headers. *)
Definition is_assign_call (e : Emit) : bool :=
  match e with AssignMembers _ _ _ _ => true | _ => false end.
Definition is_members_call (e : Emit) : bool :=
  match e with VSOutputMembers _ _ _ _ => true | _ => false end.

(** The helper call [e], if it is one, receives [texgens] and
    [pixel_lighting]. *)
Definition threaded (texgens : Z) (pixel_lighting : bool) (e : Emit) : Prop :=
  match e with
  | VSOutputMembers _ n pl _ | AssignMembers _ _ n pl =>
      n = texgens /\ pl = pixel_lighting
  | _ => True
  end.

(** The end of the primitive, in either dialect. *)
Definition is_end_primitive (e : Emit) : bool :=
  starts_with "\tEndPrimitive();" e || starts_with "\toutput.RestartStrip();" e.

(** The declaration of the bound on the output vertices, in either
    dialect. *)
Definition is_output_bound (e : Emit) : bool :=
  starts_with "layout(line_strip" e || starts_with "layout(triangle_strip" e
  || starts_with "[maxvertexcount(" e.

(** The number of vertices the expansion of one input vertex emits, and the
    number of input vertices the set-up of a primitive reads. *)
Definition emissions_per_vertex (p : PrimitiveType) : nat :=
  match p with
  | Lines => 2
  | Points => 4
  | Triangles | TriangleStrip => 1
  end.
Definition setup_reads (p : PrimitiveType) : nat :=
  match p with
  | Lines => 2
  | Points => 1
  | Triangles | TriangleStrip => 0
  end.

(** Opening braces minus closing braces of a string, and of the writes of
    this file in a sequence. *)
Fixpoint braces (s : string) : Z :=
  match s with
  | EmptyString => 0
  | String c s' =>
      (if (c =? "{")%char then 1 else if (c =? "}")%char then -1 else 0) + braces s'
  end.

Definition emit_braces (e : Emit) : Z :=
  match e with
  | Text s => braces s
  | _ => 0
  end.

Definition balance (code : ShaderCode) : Z :=
  fold_right (fun e acc => emit_braces e + acc) 0 code.

(** The name of a uniform is an identifier: letters, digits and
    underscores. *)
Definition is_ident_char (c : ascii) : bool :=
  let k := nat_of_ascii c in
  ((48 <=? k) && (k <=? 57) || (65 <=? k) && (k <=? 90)
   || (97 <=? k) && (k <=? 122) || (k =? 95))%nat.

Fixpoint identifier (s : string) : bool :=
  match s with
  | EmptyString => true
  | String c s' => is_ident_char c && identifier s'
  end.

(** A literal that a format copies without reading an argument: no
    conversion, and no backslash left without its character. *)
Fixpoint closed_literal (fmt : string) : bool :=
  match fmt with
  | EmptyString => true
  | String c rest =>
      if (c =? "\")%char then
        match rest with
        | String _ rest' => closed_literal rest'
        | EmptyString => false
        end
      else if (c =? "%")%char then false
      else closed_literal rest
  end.

(** A format none of whose conversions is spelled with a brace. *)
Fixpoint tame (fmt : string) : bool :=
  match fmt with
  | EmptyString => true
  | String c rest =>
      if (c =? "\")%char then
        match rest with
        | String _ rest' => tame rest'
        | EmptyString => true
        end
      else if (c =? "%")%char then
        match rest with
        | String conv rest' =>
            negb (conv =? "{")%char && negb (conv =? "}")%char && tame rest'
        | EmptyString => true
        end
      else tame rest
  end.

(** An argument whose text holds no brace. *)
Definition brace_free (a : Arg) : Prop :=
  match a with
  | S_ s => braces s = 0
  | D_ _ => True
  end.

(** ** The line-cap statements of the generated shader

    The statements the line path writes, read as the arithmetic they
    denote.  The generator fixes the statements, not the arithmetic of the
    device that runs them, so the reading is made over an arbitrary
    arithmetic of the shader's [float]; [binary32] below is the IEEE 754
    single-precision one, with its rounding, infinities and NaN. *)

Record FloatArith := {
  float : Type;
  (** the conversion of an integer literal, as in [float2(..., 0)] *)
  float_of_int : Z -> float;
  fadd : float -> float -> float;
  fsub : float -> float -> float;
  fmul : float -> float -> float;
  fdiv : float -> float -> float;
  fneg : float -> float;
  fabs : float -> float;
  (** [a > b] *)
  fgt : float -> float -> bool }.

(** IEEE 754 binary32: 24 bits of precision, exponents up to 128, rounding
    to nearest even. *)
Definition binary32 : FloatArith :=
  {| float := spec_float;
     float_of_int := fun n => binary_normalize 24 128 n 0 false;
     fadd := SFadd 24 128;
     fsub := SFsub 24 128;
     fmul := SFmul 24 128;
     fdiv := SFdiv 24 128;
     fneg := SFopp;
     fabs := SFabs;
     fgt := fun a b => SFltb b a |}.

Section LineCap.

Variable A : FloatArith.

Record float2 := mk_float2 { f2x : float A; f2y : float A }.
Record float4 := mk_float4 { f4x : float A; f4y : float A; f4z : float A; f4w : float A }.

(** [float2 to = abs(end.pos.xy / end.pos.w - start.pos.xy / start.pos.w);] *)
Definition line_to (start_pos end_pos : float4) : float2 :=
  {| f2x := fabs A (fsub A (fdiv A (f4x end_pos) (f4w end_pos))
                           (fdiv A (f4x start_pos) (f4w start_pos)));
     f2y := fabs A (fsub A (fdiv A (f4y end_pos) (f4w end_pos))
                           (fdiv A (f4y start_pos) (f4w start_pos))) |}.

(** [lineptparams.y * to.y > lineptparams.x * to.x], the test the source
    comments as "line is more tall". *)
Definition more_tall (lineptparams : float4) (to : float2) : bool :=
  fgt A (fmul A (f4y lineptparams) (f2y to)) (fmul A (f4x lineptparams) (f2x to)).

(** [if (more tall) offset = float2(lineptparams.z / lineptparams.x, 0);
     else offset = float2(0, -lineptparams.z / lineptparams.y);] *)
Definition line_offset (lineptparams : float4) (to : float2) : float2 :=
  if more_tall lineptparams to
  then {| f2x := fdiv A (f4z lineptparams) (f4x lineptparams);
          f2y := float_of_int A 0 |}
  else {| f2x := float_of_int A 0;
          f2y := fdiv A (fneg A (f4z lineptparams)) (f4y lineptparams) |}.

(** [l.pos.xy -= offset * l.pos.w;] on [l = f]. *)
Definition line_left (offset : float2) (f_pos : float4) : float2 :=
  {| f2x := fsub A (f4x f_pos) (fmul A (f2x offset) (f4w f_pos));
     f2y := fsub A (f4y f_pos) (fmul A (f2y offset) (f4w f_pos)) |}.

(** [r.pos.xy += offset * r.pos.w;] on [r = f]. *)
Definition line_right (offset : float2) (f_pos : float4) : float2 :=
  {| f2x := fadd A (f4x f_pos) (fmul A (f2x offset) (f4w f_pos));
     f2y := fadd A (f4y f_pos) (fmul A (f2y offset) (f4w f_pos)) |}.

(** An offset along the vertical axis has the literal [0] as its horizontal
    component, and conversely. *)
Definition is_vertical (offset : float2) : Prop := f2x offset = float_of_int A 0.
Definition is_horizontal (offset : float2) : Prop := f2y offset = float_of_int A 0.

End LineCap.

Arguments mk_float2 {A}.
Arguments mk_float4 {A}.
Arguments f2x {A}.
Arguments f2y {A}.
Arguments f4x {A}.
Arguments f4y {A}.
Arguments f4z {A}.
Arguments f4w {A}.
Arguments line_to {A}.
Arguments more_tall {A}.
Arguments line_offset {A}.
Arguments line_left {A}.
Arguments line_right {A}.
Arguments is_vertical {A}.
Arguments is_horizontal {A}.

(** ** An instance of what the headers leave open *)

Module Sample.

Definition stereoparams : string := "cstereo".
Definition lineptparams : string := "clinept".
Definition texoffset : string := "ctexoffset".

Definition config : VideoConfig :=
  {| iStereoMode := 0; bWireFrame := false; bEnablePixelLighting := false;
     bSupportsPrimitiveRestart := true; bSupportsBindingLayout := true |}.

Definition globals : Globals :=
  {| g_ActiveConfig := config; HasBug_BROKEN_CLIP_DISTANCE := false;
     xfmem_numTexGens := 2 |}.

(** A second state of the globals, which differs in everything the
    generator does not read. *)
Definition other_globals : Globals :=
  {| g_ActiveConfig :=
       {| iStereoMode := 1; bWireFrame := true; bEnablePixelLighting := false;
          bSupportsPrimitiveRestart := false; bSupportsBindingLayout := false |};
     HasBug_BROKEN_CLIP_DISTANCE := false;
     xfmem_numTexGens := 5 |}.

(** A third state, with the capabilities of [globals] and pixel lighting
    switched on. *)
Definition lit_globals : Globals :=
  {| g_ActiveConfig :=
       {| iStereoMode := 2; bWireFrame := false; bEnablePixelLighting := true;
          bSupportsPrimitiveRestart := true; bSupportsBindingLayout := true |};
     HasBug_BROKEN_CLIP_DISTANCE := true;
     xfmem_numTexGens := 1 |}.

(** A text for each helper of the absent headers. *)
Definition lighting_struct : string := "struct Light { int4 color; };".
Definition interpolation (m s b i : bool) : string :=
  if s then "sample" else if m then "centroid" else "".
Definition members_text (api : APIType) (n : Z) (pl : bool) (q : string) : string :=
  q ++ " float4 pos;" ++ dec n.
Definition assign_text (a b : string) (n : Z) (pl : bool) : string :=
  a ++ " = " ++ b ++ ";".
Definition member_text (api : APIType) (q ty name : string) (idx : Z)
  (sem : string) (semidx : option Z) : string :=
  q ++ " " ++ ty ++ " " ++ name ++ ";".

Definition mono : ShaderHostConfig :=
  {| wireframe := false; msaa := false; ssaa := false; stereo := false;
     vr := false; more_layers := false; backend_gs_instancing := false;
     backend_depth_clamp := false |}.

Definition mono_instanced : ShaderHostConfig :=
  {| wireframe := false; msaa := false; ssaa := false; stereo := false;
     vr := false; more_layers := false; backend_gs_instancing := true;
     backend_depth_clamp := false |}.

Definition stereo_looped : ShaderHostConfig :=
  {| wireframe := false; msaa := false; ssaa := false; stereo := true;
     vr := false; more_layers := false; backend_gs_instancing := false;
     backend_depth_clamp := false |}.

Definition four_layers : ShaderHostConfig :=
  {| wireframe := false; msaa := false; ssaa := false; stereo := true;
     vr := false; more_layers := true; backend_gs_instancing := false;
     backend_depth_clamp := false |}.

Definition stereo_instanced : ShaderHostConfig :=
  {| wireframe := false; msaa := false; ssaa := false; stereo := true;
     vr := false; more_layers := false; backend_gs_instancing := true;
     backend_depth_clamp := false |}.

Definition wireframed : ShaderHostConfig :=
  {| wireframe := true; msaa := false; ssaa := false; stereo := false;
     vr := false; more_layers := false; backend_gs_instancing := false;
     backend_depth_clamp := false |}.

Definition depth_clamped : ShaderHostConfig :=
  {| wireframe := false; msaa := false; ssaa := false; stereo := false;
     vr := false; more_layers := false; backend_gs_instancing := false;
     backend_depth_clamp := true |}.

Definition lines2 : geometry_shader_uid_data :=
  {| numTexGens := 2; primitive_type := to_u32 Lines |}.

Definition triangles0 : geometry_shader_uid_data :=
  {| numTexGens := 0; primitive_type := to_u32 Triangles |}.

(** Single-precision values: lines from the origin straight up and
    straight to the side, with unit sizing parameters. *)
Definition single (n : Z) : float binary32 := float_of_int binary32 n.
Definition unit_params : float4 binary32 :=
  mk_float4 (single 1) (single 1) (single 1) (single 0).
Definition origin : float4 binary32 :=
  mk_float4 (single 0) (single 0) (single 0) (single 1).
Definition above : float4 binary32 :=
  mk_float4 (single 0) (single 1) (single 0) (single 1).
Definition beside : float4 binary32 :=
  mk_float4 (single 1) (single 0) (single 0) (single 1).

(** A host configuration for the headset. *)
Definition headset : ShaderHostConfig :=
  {| wireframe := false; msaa := false; ssaa := false; stereo := true;
     vr := true; more_layers := false; backend_gs_instancing := false;
     backend_depth_clamp := false |}.

End Sample.

(** * Properties *)

Arguments dec : simpl never.
Arguments wrap32 : simpl never.
Arguments layers_of : simpl never.
Arguments vertex_out_of : simpl never.
Arguments vertex_in_of : simpl never.
Arguments at_index : simpl never.

(** ** Counts computed at the head of the generators *)

Lemma layers_of_eq (hc : ShaderHostConfig) :
  layers_of hc = Z.b2z (more_layers hc) * 2 + Z.b2z (stereo hc) + 1.
Proof.
  unfold layers_of, wrap32.
  destruct (more_layers hc), (stereo hc); reflexivity.
Qed.

Lemma vertex_out_of_eq (p : PrimitiveType) (w : bool) :
  vertex_out_of (to_u32 p) w =
  (match p with TriangleStrip => 3 | _ => 4 end) + Z.b2z w.
Proof.
  destruct p, w; reflexivity.
Qed.

Lemma vertex_in_of_eq (p : PrimitiveType) :
  vertex_in_of (to_u32 p) =
  match p with Points => 1 | Lines => 2 | Triangles | TriangleStrip => 3 end.
Proof.
  destruct p; reflexivity.
Qed.

(** ** IsPassthrough *)

(** C9: on a key whose primitive type is one of the four defined values,
    [IsPassthrough] answers true exactly when that primitive is [Triangles]
    or [TriangleStrip] and neither the stereo mode nor the wireframe flag of
    the global configuration is on.  The function receives the globals and
    the key only; no host-configuration snapshot reaches it. *)
Theorem IsPassthrough_iff (g : Globals) (p : PrimitiveType) (n : Z) :
  IsPassthrough g {| numTexGens := n; primitive_type := to_u32 p |} = true <->
  (p = Triangles \/ p = TriangleStrip) /\
  (iStereoMode (g_ActiveConfig g) >? 0) = false /\
  bWireFrame (g_ActiveConfig g) = false.
Proof.
  unfold IsPassthrough; cbn [primitive_type].
  rewrite !andb_true_iff, !negb_true_iff.
  split.
  - intros [[Hp Hs] Hw]. repeat split; try assumption.
    destruct p; cbn in Hp; try discriminate Hp; auto.
  - intros [[Hp | Hp] [Hs Hw]]; subst p; repeat split; assumption.
Qed.

(** ** The enumerator *)

(** Whatever the callback, the enumerator calls it on the keys of
    [enumerated], in order, and on nothing else. *)
Lemma Enumerate_calls {St : Type} (callback : GeometryShaderUid -> St -> St)
  (g : Globals) (s : St) :
  EnumerateGeometryShaderUids callback g s =
  fold_left (fun acc uid => callback uid acc) (enumerated g) s.
Proof.
  unfold enumerated, EnumerateGeometryShaderUids.
  destruct (bSupportsPrimitiveRestart (g_ActiveConfig g)); reflexivity.
Qed.

Lemma enumerated_by_flag (g : Globals) :
  enumerated g =
  flat_map
    (fun p => map (fun n => {| numTexGens := Z.of_nat n; primitive_type := to_u32 p |})
                  (seq 0 9))
    [ if bSupportsPrimitiveRestart (g_ActiveConfig g) then TriangleStrip else Triangles;
      Lines; Points ].
Proof.
  unfold enumerated, EnumerateGeometryShaderUids.
  destruct (bSupportsPrimitiveRestart (g_ActiveConfig g)); reflexivity.
Qed.

Ltac nodup_by_computation :=
  repeat (constructor;
          [ cbn; let H := fresh "H" in
                 intros H;
                 repeat (destruct H as [H | H]; [ discriminate H | ]);
                 exact H
          | ]);
  constructor.

(** The number of calls the enumerator makes, counted by a callback that
    does nothing else. *)
Lemma Enumerate_call_count (g : Globals) :
  EnumerateGeometryShaderUids (fun _ calls => S calls) g 0%nat = 27%nat.
Proof.
  unfold EnumerateGeometryShaderUids.
  destruct (bSupportsPrimitiveRestart (g_ActiveConfig g)); reflexivity.
Qed.

(** The keys handed out are those of one of the three primitive choices
    with a texgen count from 0 to 8. *)
Lemma In_enumerated (g : Globals) (uid : GeometryShaderUid) :
  In uid (enumerated g) <->
  (primitive_type uid =
     to_u32 (if bSupportsPrimitiveRestart (g_ActiveConfig g)
             then TriangleStrip else Triangles) \/
   primitive_type uid = to_u32 Lines \/
   primitive_type uid = to_u32 Points) /\
  0 <= numTexGens uid <= 8.
Proof.
  rewrite enumerated_by_flag, in_flat_map.
  split.
  - intros (p & Hp & Huid).
    apply in_map_iff in Huid. destruct Huid as (k & <- & Hk).
    apply in_seq in Hk. cbn [primitive_type numTexGens].
    split; [ | lia ].
    destruct Hp as [<- | [<- | [<- | []]]]; auto.
  - intros (Hp & Hn). destruct uid as [n q]. cbn [primitive_type numTexGens] in Hp, Hn.
    assert (Hkey : forall p, q = to_u32 p ->
              In {| numTexGens := n; primitive_type := q |}
                 (map (fun k => {| numTexGens := Z.of_nat k; primitive_type := to_u32 p |})
                      (seq 0 9))).
    { intros p ->. apply in_map_iff. exists (Z.to_nat n).
      split; [ f_equal; lia | apply in_seq; lia ]. }
    destruct Hp as [Hp | [Hp | Hp]].
    + eexists. split; [ left; reflexivity | apply Hkey; exact Hp ].
    + exists Lines. split; [ right; left; reflexivity | apply Hkey; exact Hp ].
    + exists Points. split; [ right; right; left; reflexivity | apply Hkey; exact Hp ].
Qed.

(** C4: under either value of the primitive-restart capability the callback
    is invoked exactly 27 times, on the keys of three primitive choices
    (triangle strips with the capability and triangles without it, then
    lines, then points), each with the texgen counts 0 to 8 in increasing
    order; no two of the 27 keys are equal, and a second run under the same
    capability value hands out the same keys in the same order. *)
Theorem enumerate_27_distinct_restartable (g g' : Globals)
  (Hcap : bSupportsPrimitiveRestart (g_ActiveConfig g') =
          bSupportsPrimitiveRestart (g_ActiveConfig g)) :
  let triangles := if bSupportsPrimitiveRestart (g_ActiveConfig g)
                   then TriangleStrip else Triangles in
  let keys_of (p : PrimitiveType) :=
    map (fun texgens => {| numTexGens := texgens; primitive_type := to_u32 p |})
        [0; 1; 2; 3; 4; 5; 6; 7; 8] in
  (forall (St : Type) (callback : GeometryShaderUid -> St -> St) (s : St),
      EnumerateGeometryShaderUids callback g s =
      fold_left (fun acc uid => callback uid acc) (enumerated g) s) /\
  EnumerateGeometryShaderUids (fun _ calls => S calls) g 0%nat = 27%nat /\
  enumerated g = (keys_of triangles ++ keys_of Lines ++ keys_of Points)%list /\
  (forall uid, In uid (enumerated g) <->
               (primitive_type uid = to_u32 triangles \/
                primitive_type uid = to_u32 Lines \/
                primitive_type uid = to_u32 Points) /\
               0 <= numTexGens uid <= 8) /\
  List.length (enumerated g) = 27%nat /\
  NoDup (enumerated g) /\
  enumerated g' = enumerated g.
Proof.
  cbv zeta.
  split; [ intros; apply Enumerate_calls | ].
  split; [ apply Enumerate_call_count | ].
  split; [ rewrite enumerated_by_flag;
           destruct (bSupportsPrimitiveRestart (g_ActiveConfig g)); reflexivity | ].
  split; [ intros uid; apply In_enumerated | ].
  rewrite (enumerated_by_flag g), (enumerated_by_flag g'), Hcap.
  destruct (bSupportsPrimitiveRestart (g_ActiveConfig g)).
  - split; [ reflexivity | split; [ cbn; nodup_by_computation | reflexivity ] ].
  - split; [ reflexivity | split; [ cbn; nodup_by_computation | reflexivity ] ].
Qed.

Lemma enumerate_27_distinct_restartable_witness :
  bSupportsPrimitiveRestart (g_ActiveConfig Sample.lit_globals) =
  bSupportsPrimitiveRestart (g_ActiveConfig Sample.globals) /\
  EnumerateGeometryShaderUids (fun _ calls => S calls) Sample.globals 0%nat = 27%nat /\
  NoDup (enumerated Sample.globals) /\
  enumerated Sample.lit_globals = enumerated Sample.globals.
Proof.
  split; [ reflexivity | ].
  pose proof (enumerate_27_distinct_restartable
                Sample.globals Sample.lit_globals eq_refl) as H.
  cbv zeta in H.
  exact (conj (proj1 (proj2 H))
              (proj2 (proj2 (proj2 (proj2 (proj2 H)))))).
Defined.

(** ** Determinism *)

Section Determinism.

Variables I_STEREOPARAMS I_LINEPTPARAMS I_TEXOFFSET : string.
Variable s_lighting_struct : string.
Variable GetInterpolationQualifier : bool -> bool -> bool -> bool -> string.
Variable VSOutputMembers_text : APIType -> Z -> bool -> string -> string.
Variable AssignMembers_text : string -> string -> Z -> bool -> string.
Variable OutputMember_text :
  APIType -> string -> string -> string -> Z -> string -> option Z -> string.

Local Abbreviation Generate :=
  (GenerateGeometryShaderCode I_STEREOPARAMS I_LINEPTPARAMS I_TEXOFFSET).
Local Abbreviation text :=
  (buffer_text s_lighting_struct GetInterpolationQualifier VSOutputMembers_text
               AssignMembers_text OutputMember_text).

(** The generator reads two things of the globals and nothing else. *)
Lemma Generate_reads_two_globals (g1 g2 : Globals) (api : APIType)
  (hc : ShaderHostConfig) (uid : geometry_shader_uid_data) :
  bEnablePixelLighting (g_ActiveConfig g1) = bEnablePixelLighting (g_ActiveConfig g2) ->
  HasBug_BROKEN_CLIP_DISTANCE g1 = HasBug_BROKEN_CLIP_DISTANCE g2 ->
  Generate g1 api hc uid = Generate g2 api hc uid.
Proof.
  intros Hpl Hbug.
  unfold GenerateGeometryShaderCode, gs_declarations, gs_primitive_setup,
    gs_vertex_fetch, gs_expand, gs_close.
  rewrite Hpl, Hbug. reflexivity.
Qed.

(** C1: two calls on the same API and host configuration, made while the
    pixel-lighting flag and the clip-distance driver bug have the same
    values, and on keys whose two members agree, write the same characters;
    whatever else differs between the globals of the two calls does not
    reach the text. *)
Theorem generation_deterministic (g1 g2 : Globals) (api : APIType)
  (hc : ShaderHostConfig) (uid1 uid2 : geometry_shader_uid_data)
  (Hlighting : bEnablePixelLighting (g_ActiveConfig g1) =
               bEnablePixelLighting (g_ActiveConfig g2))
  (Hbug : HasBug_BROKEN_CLIP_DISTANCE g1 = HasBug_BROKEN_CLIP_DISTANCE g2)
  (Htexgens : numTexGens uid1 = numTexGens uid2)
  (Hprimitive : primitive_type uid1 = primitive_type uid2) :
  Generate g1 api hc uid1 = Generate g2 api hc uid2 /\
  text (Generate g1 api hc uid1) = text (Generate g2 api hc uid2).
Proof.
  assert (Huid : uid1 = uid2).
  { destruct uid1, uid2; cbn in Htexgens, Hprimitive; congruence. }
  subst uid2.
  rewrite (Generate_reads_two_globals g1 g2 api hc uid1 Hlighting Hbug).
  split; reflexivity.
Qed.

End Determinism.

Lemma generation_deterministic_witness :
  let gen := GenerateGeometryShaderCode Sample.stereoparams Sample.lineptparams
                                        Sample.texoffset in
  let text := buffer_text Sample.lighting_struct Sample.interpolation
                          Sample.members_text Sample.assign_text Sample.member_text in
  text (gen Sample.globals Vulkan Sample.stereo_looped Sample.lines2) =
  text (gen Sample.other_globals Vulkan Sample.stereo_looped
            (mk_uid 2 (to_u32 Lines))).
Proof.
  exact (proj2 (generation_deterministic
                  Sample.stereoparams Sample.lineptparams Sample.texoffset
                  Sample.lighting_struct Sample.interpolation
                  Sample.members_text Sample.assign_text Sample.member_text
                  Sample.globals Sample.other_globals Vulkan Sample.stereo_looped
                  Sample.lines2 (mk_uid 2 (to_u32 Lines))
                  eq_refl eq_refl eq_refl eq_refl)).
Defined.

(** ** Reading the output *)

Arguments for_u32 : simpl never.

Lemma count_app (p : Emit -> bool) (a b : ShaderCode) :
  count p (a ;; b) = (count p a + count p b)%nat.
Proof.
  unfold count. rewrite filter_app. apply length_app.
Qed.

Lemma count_seq_eq (p : Emit -> bool) (a b : ShaderCode) (x y : nat) :
  count p a = x -> count p b = y -> count p (a ;; b) = (x + y)%nat.
Proof.
  intros <- <-. apply count_app.
Qed.

(** A loop whose body writes nothing that satisfies [p] writes nothing that
    satisfies [p]. *)
Lemma count_for_u32_none (p : Emit -> bool) (n : Z) (body : Z -> ShaderCode) :
  (forall i, count p (body i) = 0%nat) ->
  count p (for_u32 n body) = 0%nat.
Proof.
  intros Hbody. unfold for_u32.
  induction (map Z.of_nat (seq 0 (Z.to_nat n))) as [| i rest IH]; [ reflexivity | ].
  cbn [flat_map]. rewrite count_app, Hbody, IH. reflexivity.
Qed.

(** A loop whose body always writes [k] writes that satisfy [p] writes [k]
    of them per iteration. *)
Lemma count_for_u32_each (p : Emit -> bool) (k : nat) (n : Z) (body : Z -> ShaderCode) :
  (forall i, count p (body i) = k) ->
  count p (for_u32 n body) = (k * Z.to_nat n)%nat.
Proof.
  intros Hbody. unfold for_u32.
  assert (Hlist : forall l, count p (flat_map body l) = (k * List.length l)%nat).
  { induction l as [| i rest IH].
    - cbn. lia.
    - cbn [flat_map List.length]. rewrite count_app, Hbody, IH. lia. }
  rewrite Hlist, length_map, length_seq. reflexivity.
Qed.

Lemma in_for_u32 (e : Emit) (n i : Z) (body : Z -> ShaderCode) :
  0 <= i < n -> In e (body i) -> In e (for_u32 n body).
Proof.
  intros Hi He. unfold for_u32. apply in_flat_map.
  exists i. split; [ | exact He ].
  apply in_map_iff. exists (Z.to_nat i). split; [ lia | ].
  apply in_seq. lia.
Qed.

Lemma flat_map_for_u32 (f : Emit -> ShaderCode) (n : Z) (body : Z -> ShaderCode) :
  (forall i, flat_map f (body i) = body i) ->
  flat_map f (for_u32 n body) = for_u32 n body.
Proof.
  intros Hbody. unfold for_u32.
  induction (map Z.of_nat (seq 0 (Z.to_nat n))) as [| i rest IH]; [ reflexivity | ].
  cbn [flat_map]. rewrite flat_map_app, Hbody, IH. reflexivity.
Qed.

Lemma flat_map_seq_eq (f : Emit -> ShaderCode) (a a' b b' : ShaderCode) :
  flat_map f a = a' -> flat_map f b = b' -> flat_map f (a ;; b) = a' ;; b'.
Proof. intros <- <-. apply flat_map_app. Qed.

(** Finds a write in a sequence whose conditions have been decided. *)
Ltac find_in :=
  lazymatch goal with
  | |- In _ (app _ _) => apply in_or_app; first [ left; find_in | right; find_in ]
  | |- In _ (_ :: _) => first [ left; vm_compute; reflexivity | right; find_in ]
  | |- In ?e ?l =>
      let l' := eval hnf in l in
      lazymatch l' with
      | _ :: _ => change (In e l'); find_in
      end
  end.

(** Decides the conditions a piece of generation branches on. *)
Ltac decide_branches :=
  repeat match goal with
         | |- context [if ?c then _ else _] => destruct c
         end.

Ltac unfold_pieces :=
  unfold gs_declarations, gs_primitive_setup, gs_eye_open, gs_vertex_fetch,
    gs_expand, gs_close, EndPrimitive,
    avatar_declarations, avatar_primitive_setup, avatar_eye_open,
    avatar_vertex_fetch, avatar_expand;
  unfold gs_line_nudges, gs_point_nudges, avatar_point_nudges,
    avatar_members, avatar_assign, DefineOutputMember,
    GenerateVSOutputMembers, AssignVSOutputMembers, skip.

(** ** One vertex emission *)

Section OneEmission.

Variables (hc : ShaderHostConfig) (uid : geometry_shader_uid_data)
          (vertex : string) (w pl first_vertex : bool).

Ltac by_cases_on api :=
  unfold EmitVertex, AssignVSOutputMembers, skip;
  destruct api; cbn [APIType_eqb is_glsl orb];
  decide_branches; vm_compute; reflexivity.

Lemma EmitVertex_eye_loops (api : APIType) :
  count is_eye_loop (EmitVertex hc uid vertex api w pl first_vertex) = 0%nat.
Proof. by_cases_on api. Qed.

Lemma EmitVertex_eye_bindings (api : APIType) :
  count is_eye_binding (EmitVertex hc uid vertex api w pl first_vertex) = 0%nat.
Proof. by_cases_on api. Qed.

Lemma EmitVertex_nudges (api : APIType) :
  count is_tex_nudge (EmitVertex hc uid vertex api w pl first_vertex) = 0%nat.
Proof. by_cases_on api. Qed.

Lemma EmitVertex_emissions (api : APIType) :
  count is_vertex_emission (EmitVertex hc uid vertex api w pl first_vertex) = 1%nat.
Proof. by_cases_on api. Qed.

Lemma EmitVertex_flips (api : APIType) :
  count is_y_flip (EmitVertex hc uid vertex api w pl first_vertex) =
  match api with Vulkan => 1%nat | OpenGL | D3D => 0%nat end.
Proof. by_cases_on api. Qed.

Lemma EmitVertex_clip_writes :
  count is_clip_write (EmitVertex hc uid vertex Vulkan w pl first_vertex) = 0%nat.
Proof.
  unfold EmitVertex, AssignVSOutputMembers, skip. cbn [APIType_eqb is_glsl orb].
  decide_branches; vm_compute; reflexivity.
Qed.

Lemma vulkan_of_opengl_EmitVertex :
  flat_map vulkan_of_opengl_emit (EmitVertex hc uid vertex OpenGL w pl first_vertex) =
  EmitVertex hc uid vertex Vulkan w pl first_vertex.
Proof.
  unfold EmitVertex, AssignVSOutputMembers, skip. cbn [APIType_eqb is_glsl orb].
  decide_branches; vm_compute; reflexivity.
Qed.

Lemma add_flip_EmitVertex :
  backend_depth_clamp hc = false ->
  flat_map add_flip_emit (EmitVertex hc uid vertex OpenGL w pl first_vertex) =
  EmitVertex hc uid vertex Vulkan w pl first_vertex.
Proof.
  intros Hdc.
  unfold EmitVertex, AssignVSOutputMembers, skip. cbn [APIType_eqb is_glsl orb].
  rewrite Hdc. decide_branches; vm_compute; reflexivity.
Qed.

End OneEmission.

(** Counts the writes of a sequence by its structure: sequencing, vertex
    emissions, loops, and single writes by evaluation. *)
Ltac count_structure :=
  lazymatch goal with
  | |- count _ (app _ _) = _ =>
      apply count_seq_eq; count_structure
  | |- count is_eye_loop (EmitVertex _ _ _ _ _ _ _) = _ =>
      apply EmitVertex_eye_loops
  | |- count is_eye_binding (EmitVertex _ _ _ _ _ _ _) = _ =>
      apply EmitVertex_eye_bindings
  | |- count is_tex_nudge (EmitVertex _ _ _ _ _ _ _) = _ =>
      apply EmitVertex_nudges
  | |- count is_vertex_emission (EmitVertex _ _ _ _ _ _ _) = _ =>
      apply EmitVertex_emissions
  | |- count is_y_flip (EmitVertex _ _ _ _ _ _ _) = _ =>
      apply EmitVertex_flips
  | |- count is_clip_write (EmitVertex _ _ _ _ _ _ _) = _ =>
      apply EmitVertex_clip_writes
  | |- count _ (for_u32 _ _) = _ =>
      first [ apply count_for_u32_none; intros; vm_compute; reflexivity
            | apply (count_for_u32_each _ 1%nat); intros; vm_compute; reflexivity
            | apply (count_for_u32_each _ 3%nat); intros; vm_compute; reflexivity ]
  | |- count ?p ?l = ?r =>
      let v := eval vm_compute in (count p l) in
      unify r v; vm_compute; reflexivity
  end.

(** Proves [count p piece = k] for a piece whose conditions are decided
    first. *)
Ltac count_sides :=
  lazymatch goal with
  | |- count _ _ = count _ _ =>
      etransitivity;
      [ count_structure
      | symmetry; etransitivity; [ count_structure | vm_compute; reflexivity ] ]
  | |- count _ _ = _ =>
      etransitivity; [ count_structure | vm_compute; reflexivity ]
  end.

Ltac count_piece :=
  unfold_pieces; cbn [APIType_eqb is_glsl orb];
  decide_branches; count_sides.

(** Rewrites a transformed sequence piece by piece, given the rewriting of
    [EmitVertex]. *)
Ltac transform HEmit :=
  lazymatch goal with
  | |- flat_map _ (app _ _) = _ =>
      apply flat_map_seq_eq; transform HEmit
  | |- flat_map _ (EmitVertex _ _ _ _ _ _ _) = _ =>
      apply HEmit
  | |- flat_map _ (for_u32 _ _) = _ =>
      apply flat_map_for_u32; intros; unfold Write; cbn; reflexivity
  | |- _ => unfold Write; cbn; reflexivity
  end.

(** Splits a transformed sequence at its outermost sequencing only. *)
Ltac split_seq :=
  lazymatch goal with
  | |- flat_map _ (app _ _) = app _ _ => apply flat_map_seq_eq; [ | split_seq ]
  | |- _ => idtac
  end.

Ltac transform_pieces HEmit :=
  unfold_pieces; cbn [APIType_eqb is_glsl orb];
  decide_branches; transform HEmit.

Section Output.

Variables I_STEREOPARAMS I_LINEPTPARAMS I_TEXOFFSET : string.

Local Abbreviation Generate :=
  (GenerateGeometryShaderCode I_STEREOPARAMS I_LINEPTPARAMS I_TEXOFFSET).
Local Abbreviation declarations :=
  (gs_declarations I_STEREOPARAMS I_LINEPTPARAMS I_TEXOFFSET).

Lemma In_declarations (e : Emit) (g : Globals) (api : APIType)
  (hc : ShaderHostConfig) (uid : geometry_shader_uid_data) :
  In e (declarations g api hc uid) -> In e (Generate g api hc uid).
Proof.
  intros He. unfold GenerateGeometryShaderCode.
  apply in_or_app. left. exact He.
Qed.

(** ** The vertex counts *)

(** C3: the vertex-out count is 3 for a triangle strip and 4 otherwise,
    plus one under wireframe, whatever the number of texgens; the input
    array is declared with 1 vertex for points, 2 for lines and 3 for
    triangles and triangle strips.  The output bound is declared from the
    vertex-out count, multiplied by the layer count when the layers are not
    instanced. *)
Theorem vertex_count_law (g : Globals) (api : APIType) (hc : ShaderHostConfig)
  (p : PrimitiveType) (n : Z) :
  let uid := {| numTexGens := n; primitive_type := to_u32 p |} in
  let vertex_out := (match p with TriangleStrip => 3 | _ => 4 end) + Z.b2z (wireframe hc) in
  let vertex_in := match p with Points => 1 | Lines => 2 | Triangles | TriangleStrip => 3 end in
  let layers := Z.b2z (more_layers hc) * 2 + Z.b2z (stereo hc) + 1 in
  let strip := if wireframe hc then "line" else "triangle" in
  let stream := if wireframe hc then "Line" else "Triangle" in
  vertex_out_of (primitive_type uid) (wireframe hc) = vertex_out /\
  vertex_in_of (primitive_type uid) = vertex_in /\
  match api, backend_gs_instancing hc with
  | (OpenGL | Vulkan), true =>
      In (Text (printf "layout(%s_strip, max_vertices = %d) out;\n"
                       [S_ strip; D_ vertex_out]))
         (Generate g api hc uid) /\
      In (Text (printf "} vs[%d];\n" [D_ vertex_in])) (Generate g api hc uid)
  | (OpenGL | Vulkan), false =>
      In (Text (printf "layout(%s_strip, max_vertices = %d) out;\n"
                       [S_ strip; D_ (vertex_out * layers)]))
         (Generate g api hc uid) /\
      In (Text (printf "} vs[%d];\n" [D_ vertex_in])) (Generate g api hc uid)
  | D3D, true =>
      In (Text (printf "[maxvertexcount(%d)]\n[instance(%d)]\n"
                       [D_ vertex_out; D_ layers]))
         (Generate g api hc uid) /\
      In (Text (printf ("void main(%s VS_OUTPUT o[%d], inout %sStream<VertexData> output, in uint " ++
                        "InstanceID : SV_GSInstanceID)\n{\n")
                       [S_ (at_index primitives_d3d (to_u32 p)); D_ vertex_in; S_ stream]))
         (Generate g api hc uid)
  | D3D, false =>
      In (Text (printf "[maxvertexcount(%d)]\n" [D_ (vertex_out * layers)]))
         (Generate g api hc uid) /\
      In (Text (printf "void main(%s VS_OUTPUT o[%d], inout %sStream<VertexData> output)\n{\n"
                       [S_ (at_index primitives_d3d (to_u32 p)); D_ vertex_in; S_ stream]))
         (Generate g api hc uid)
  end.
Proof.
  cbv zeta. cbn [primitive_type].
  split; [ apply vertex_out_of_eq | ].
  split; [ apply vertex_in_of_eq | ].
  destruct hc as [w ms ss st v ml gi dc].
  destruct api, gi; split; apply In_declarations;
    unfold gs_declarations; cbn [wireframe stereo more_layers backend_gs_instancing
                                 msaa ssaa primitive_type numTexGens is_glsl APIType_eqb orb];
    destruct p, w, st, ml; find_in.
Qed.

(** ** Writes a piece never makes *)

Lemma no_eye_loop_outside_eye_open (g : Globals) (api : APIType)
  (hc : ShaderHostConfig) (uid : geometry_shader_uid_data) :
  count is_eye_loop (declarations g api hc uid) = 0%nat /\
  count is_eye_loop (gs_primitive_setup I_LINEPTPARAMS g api uid) = 0%nat /\
  count is_eye_loop (gs_vertex_fetch I_STEREOPARAMS g api hc uid) = 0%nat /\
  count is_eye_loop (gs_expand I_TEXOFFSET g api hc uid) = 0%nat /\
  count is_eye_loop (gs_close g api hc uid) = 0%nat.
Proof.
  repeat split; destruct api; count_piece.
Qed.

Lemma no_eye_binding_outside_eye_open (g : Globals) (api : APIType)
  (hc : ShaderHostConfig) (uid : geometry_shader_uid_data) :
  count is_eye_binding (declarations g api hc uid) = 0%nat /\
  count is_eye_binding (gs_primitive_setup I_LINEPTPARAMS g api uid) = 0%nat /\
  count is_eye_binding (gs_vertex_fetch I_STEREOPARAMS g api hc uid) = 0%nat /\
  count is_eye_binding (gs_expand I_TEXOFFSET g api hc uid) = 0%nat /\
  count is_eye_binding (gs_close g api hc uid) = 0%nat.
Proof.
  repeat split; destruct api; count_piece.
Qed.

(** The bindings of [eye] and the layer loops of the whole output are those
    of the piece that opens the layers. *)
Lemma eye_introductions (g : Globals) (api : APIType)
  (hc : ShaderHostConfig) (uid : geometry_shader_uid_data) :
  count is_eye_binding (Generate g api hc uid) =
    (if backend_gs_instancing hc && (stereo hc || more_layers hc) then 1 else 0)%nat /\
  count is_eye_loop (Generate g api hc uid) =
    (if negb (backend_gs_instancing hc) && (stereo hc || more_layers hc) then 1 else 0)%nat.
Proof.
  destruct (no_eye_loop_outside_eye_open g api hc uid) as (Ld & Ls & Lf & Le & Lc).
  destruct (no_eye_binding_outside_eye_open g api hc uid) as (Bd & Bs & Bf & Be & Bc).
  unfold GenerateGeometryShaderCode.
  rewrite !count_app, Ld, Ls, Lf, Le, Lc, Bd, Bs, Bf, Be, Bc.
  unfold gs_eye_open.
  destruct (backend_gs_instancing hc), (stereo hc), (more_layers hc), (wireframe hc);
    split; vm_compute; reflexivity.
Qed.

Lemma no_emission_before_loops (g : Globals) (api : APIType)
  (hc : ShaderHostConfig) (uid : geometry_shader_uid_data) :
  count is_vertex_emission
        (declarations g api hc uid ;; gs_primitive_setup I_LINEPTPARAMS g api uid) = 0%nat.
Proof.
  destruct api; count_piece.
Qed.

Lemma In_eye_open (e : Emit) (g : Globals) (api : APIType)
  (hc : ShaderHostConfig) (uid : geometry_shader_uid_data) :
  In e (gs_eye_open hc) -> In e (Generate g api hc uid).
Proof.
  intros He. unfold GenerateGeometryShaderCode.
  apply in_or_app; right. apply in_or_app; right. apply in_or_app; left. exact He.
Qed.

(** ** The layer count *)

(** C2, as the code has it: the layer count is
    [more_layers * 2 + (stereo ? 1 : 0) + 1].  With instancing the output
    declares that many invocations and an output bound of [vertex_out], and
    has no software loop over the layers; without instancing it declares an
    output bound of [vertex_out * layers].  The variable [eye] exists only
    when stereo or more_layers is set: it is then bound once to the
    invocation identifier with instancing, and without instancing it is the
    counter of the one loop [for (int eye = 0; eye < layers; ++eye)], which
    encloses every vertex emission and binds nothing to the invocation
    identifier.  With neither flag the output binds no [eye] and has no
    layer loop, with instancing and without. *)
Theorem layer_law (g : Globals) (api : APIType) (hc : ShaderHostConfig)
  (uid : geometry_shader_uid_data) :
  let layers := Z.b2z (more_layers hc) * 2 + Z.b2z (stereo hc) + 1 in
  let vertex_out := vertex_out_of (primitive_type uid) (wireframe hc) in
  let strip := if wireframe hc then "line" else "triangle" in
  let code := Generate g api hc uid in
  layers_of hc = layers /\
  match api, backend_gs_instancing hc with
  | (OpenGL | Vulkan), true =>
      In (Text (printf "layout(%s, invocations = %d) in;\n"
                       [S_ (at_index primitives_ogl (primitive_type uid)); D_ layers])) code /\
      In (Text (printf "layout(%s_strip, max_vertices = %d) out;\n"
                       [S_ strip; D_ vertex_out])) code
  | (OpenGL | Vulkan), false =>
      In (Text (printf "layout(%s_strip, max_vertices = %d) out;\n"
                       [S_ strip; D_ (vertex_out * layers)])) code
  | D3D, true =>
      In (Text (printf "[maxvertexcount(%d)]\n[instance(%d)]\n"
                       [D_ vertex_out; D_ layers])) code
  | D3D, false =>
      In (Text (printf "[maxvertexcount(%d)]\n" [D_ (vertex_out * layers)])) code
  end /\
  match backend_gs_instancing hc, stereo hc || more_layers hc with
  | true, true =>
      In (Text (printf "\tint eye = InstanceID;\n" [])) code /\
      count is_eye_binding code = 1%nat /\
      count is_eye_loop code = 0%nat
  | false, true =>
      (exists before inside : ShaderCode,
         code = before ;;
                Write "\tfor (int eye = 0; eye < %d; ++eye) {\n" [D_ layers] ;;
                inside ;;
                Write "\t}\n" [] ;;
                Write "}\n" [] /\
         count is_vertex_emission before = 0%nat) /\
      count is_eye_loop code = 1%nat /\
      count is_eye_binding code = 0%nat
  | true, false | false, false =>
      count is_eye_binding code = 0%nat /\
      count is_eye_loop code = 0%nat
  end.
Proof.
  cbv zeta. rewrite <- (layers_of_eq hc).
  split; [ reflexivity | ].
  split.
  - destruct hc as [w ms ss st v ml gi dc].
    cbn [backend_gs_instancing wireframe].
    destruct api, gi; repeat split; apply In_declarations;
      unfold gs_declarations, vertex_out_of;
      cbn [wireframe stereo more_layers backend_gs_instancing
           msaa ssaa is_glsl APIType_eqb orb];
      destruct (primitive_type uid =? to_u32 TriangleStrip), w, st, ml; find_in.
  - destruct (eye_introductions g api hc uid) as (Hbind & Hloop).
    destruct (backend_gs_instancing hc) eqn:Hgi, (stereo hc || more_layers hc) eqn:Hst;
      cbn [negb andb] in Hbind, Hloop.
    + split; [ | split; assumption ].
      apply In_eye_open. unfold gs_eye_open. rewrite Hgi, Hst. left; reflexivity.
    + split; assumption.
    + split; [ | split; assumption ].
      exists (declarations g api hc uid ;; gs_primitive_setup I_LINEPTPARAMS g api uid).
      exists ((if wireframe hc then Write "\tVS_OUTPUT first;\n" [] else skip) ;;
              Write "\tfor (int i = 0; i < %d; ++i) {\n"
                    [D_ (vertex_in_of (primitive_type uid))] ;;
              gs_vertex_fetch I_STEREOPARAMS g api hc uid ;;
              gs_expand I_TEXOFFSET g api hc uid ;;
              Write "\t}\n" [] ;;
              EndPrimitive hc uid api (wireframe hc)
                           (bEnablePixelLighting (g_ActiveConfig g))).
      split; [ | apply no_emission_before_loops ].
      unfold GenerateGeometryShaderCode, gs_eye_open, gs_close.
      rewrite Hgi, Hst. cbn [negb andb].
      rewrite <- !app_assoc. reflexivity.
    + split; assumption.
Qed.

(** ** Wireframe *)


(** ** Texture-coordinate nudges *)

Lemma no_nudge_outside_expand (g : Globals) (api : APIType)
  (hc : ShaderHostConfig) (uid : geometry_shader_uid_data) :
  count is_tex_nudge (declarations g api hc uid) = 0%nat /\
  count is_tex_nudge (gs_primitive_setup I_LINEPTPARAMS g api uid) = 0%nat /\
  count is_tex_nudge (gs_eye_open hc) = 0%nat /\
  count is_tex_nudge (gs_vertex_fetch I_STEREOPARAMS g api hc uid) = 0%nat /\
  count is_tex_nudge (gs_close g api hc uid) = 0%nat.
Proof.
  repeat split; destruct api; count_piece.
Qed.

Lemma nudges_of_expand (g : Globals) (api : APIType) (hc : ShaderHostConfig)
  (p : PrimitiveType) (n : Z) :
  count is_tex_nudge
        (gs_expand I_TEXOFFSET g api hc {| numTexGens := n; primitive_type := to_u32 p |}) =
  (nudged_vertices p * Z.to_nat n)%nat.
Proof.
  unfold gs_expand, gs_line_nudges, gs_point_nudges.
  cbn [primitive_type numTexGens].
  destruct p; cbn [to_u32 Z.eqb Pos.eqb nudged_vertices];
    (etransitivity; [ count_structure | lia ]).
Qed.

(** C7: the output holds one nudge statement per texgen index for each
    vertex the path nudges: [r] on lines; [ul], [ur] and [lr] on points;
    none on triangles.  Their number is that count of vertices times
    [numTexGens]; with no texgens the two per-texgen loops write nothing and
    the output holds no nudge at all. *)
Theorem texgen_nudges_linear (g : Globals) (api : APIType) (hc : ShaderHostConfig)
  (p : PrimitiveType) (n : Z) :
  let generate (p : PrimitiveType) (n : Z) :=
    Generate g api hc {| numTexGens := n; primitive_type := to_u32 p |} in
  count is_tex_nudge (generate p n) = (nudged_vertices p * Z.to_nat n)%nat /\
  (forall i, 0 <= i < n ->
     In (Text (printf "\t\tr.tex%d.x += texOffset;\n" [D_ i])) (generate Lines n) /\
     In (Text (printf "\t\tul.tex%d.xy += float2(0,1) * texOffset;\n" [D_ i])) (generate Points n) /\
     In (Text (printf "\t\tur.tex%d.xy += texOffset;\n" [D_ i])) (generate Points n) /\
     In (Text (printf "\t\tlr.tex%d.xy += float2(1,0) * texOffset;\n" [D_ i])) (generate Points n)) /\
  count is_tex_nudge (generate p 0) = 0%nat /\
  gs_line_nudges I_TEXOFFSET 0 = [] /\
  gs_point_nudges I_TEXOFFSET 0 = [].
Proof.
  cbv zeta.
  assert (Hcount : forall m,
             count is_tex_nudge
                   (Generate g api hc {| numTexGens := m; primitive_type := to_u32 p |}) =
             (nudged_vertices p * Z.to_nat m)%nat).
  { intros m.
    destruct (no_nudge_outside_expand g api hc
                {| numTexGens := m; primitive_type := to_u32 p |})
      as (Hd & Hs & Ho & Hf & Hc).
    unfold GenerateGeometryShaderCode.
    rewrite !count_app, Hd, Hs, Ho, Hf, Hc, nudges_of_expand.
    destruct (wireframe hc); cbn; lia. }
  split; [ apply Hcount | ].
  split; [ | split; [ rewrite Hcount; cbn; lia | split; reflexivity ] ].
  intros i Hi.
  assert (Hexpand : forall e q,
             In e (gs_expand I_TEXOFFSET g api hc
                             {| numTexGens := n; primitive_type := to_u32 q |}) ->
             In e (Generate g api hc {| numTexGens := n; primitive_type := to_u32 q |})).
  { intros e q He. unfold GenerateGeometryShaderCode.
    do 6 (apply in_or_app; right). apply in_or_app; left. exact He. }
  repeat split; apply Hexpand; unfold gs_expand; cbn [primitive_type numTexGens];
    cbn [to_u32 Z.eqb Pos.eqb].
  - do 4 (apply in_or_app; right). apply in_or_app; left.
    apply (in_for_u32 _ n i); [ exact Hi | find_in ].
  - do 4 (apply in_or_app; right). apply in_or_app; left.
    apply (in_for_u32 _ n i); [ exact Hi | find_in ].
  - do 4 (apply in_or_app; right). apply in_or_app; left.
    apply (in_for_u32 _ n i); [ exact Hi | find_in ].
  - do 4 (apply in_or_app; right). apply in_or_app; left.
    apply (in_for_u32 _ n i); [ exact Hi | find_in ].
Qed.

(** ** The avatar variant *)

Local Abbreviation GenerateAvatar :=
  (GenerateAvatarGeometryShader I_STEREOPARAMS I_LINEPTPARAMS I_TEXOFFSET).

Lemma avatar_no_eye_loop_outside_eye_open (g : Globals) (p : PrimitiveType)
  (api : APIType) (hc : ShaderHostConfig) (uid : geometry_shader_uid_data) :
  count is_eye_loop
        (avatar_declarations I_STEREOPARAMS I_LINEPTPARAMS I_TEXOFFSET g (to_u32 p) api hc)
    = 0%nat /\
  count is_eye_loop (avatar_primitive_setup I_LINEPTPARAMS (to_u32 p) api) = 0%nat /\
  count is_eye_loop (avatar_vertex_fetch I_STEREOPARAMS api hc) = 0%nat /\
  count is_eye_loop (avatar_expand I_TEXOFFSET g api hc uid) = 0%nat.
Proof.
  repeat split; destruct api; count_piece.
Qed.

(** C10: in the avatar variant, when stereo or more_layers is set and the
    layers are not instanced, the one loop over the layers runs [eye] from 0
    while [eye < 2], whatever the layer count, while the output bound at the
    head of the same text is declared as [vertex_out * layers]; with
    more_layers set that layer count is 3 or 4, never 2. *)
Theorem avatar_eye_loop_bound (g : Globals) (p : PrimitiveType) (api : APIType)
  (hc : ShaderHostConfig)
  (Hlayered : stereo hc || more_layers hc = true)
  (Hlooped : backend_gs_instancing hc = false) :
  let layers := Z.b2z (more_layers hc) * 2 + Z.b2z (stereo hc) + 1 in
  let vertex_out := vertex_out_of (to_u32 p) (wireframe hc) in
  let strip := if wireframe hc then "line" else "triangle" in
  let code := GenerateAvatar g p api hc in
  In (Text (printf "\tfor (int eye = 0; eye < 2; ++eye) {\n" [])) code /\
  count is_eye_loop code = 1%nat /\
  layers_of hc = layers /\
  (if more_layers hc then 2 < layers else layers = 2) /\
  match api with
  | OpenGL =>
      In (Text (printf "layout(%s_strip, max_vertices = %d) out;\n"
                       [S_ strip; D_ (vertex_out * layers)])) code
  | D3D | Vulkan =>
      In (Text (printf "[maxvertexcount(%d)]\n" [D_ (vertex_out * layers)])) code
  end.
Proof.
  cbv zeta.
  assert (Hopen : avatar_eye_open hc = Write "\tfor (int eye = 0; eye < 2; ++eye) {\n" []).
  { unfold avatar_eye_open. rewrite Hlayered, Hlooped. reflexivity. }
  split; [ | split; [ | split; [ | split ] ] ].
  - unfold GenerateAvatarGeometryShader. rewrite Hopen.
    do 2 (apply in_or_app; right). apply in_or_app; left. left; reflexivity.
  - destruct (avatar_no_eye_loop_outside_eye_open g p api hc
                {| numTexGens := 1; primitive_type := to_u32 p |}) as (Hd & Hs & Hf & He).
    destruct (no_eye_loop_outside_eye_open g api hc
                {| numTexGens := 1; primitive_type := to_u32 p |}) as (_ & _ & _ & _ & Hc).
    unfold GenerateAvatarGeometryShader.
    rewrite Hopen, !count_app, Hd, Hs, Hf, He, Hc.
    destruct (wireframe hc); vm_compute; reflexivity.
  - apply layers_of_eq.
  - destruct (more_layers hc), (stereo hc); cbn in *; try lia; discriminate Hlayered.
  - destruct hc as [w ms ss st v ml gi dc]. cbn in Hlayered, Hlooped. subst gi.
    unfold GenerateAvatarGeometryShader.
    destruct api; apply in_or_app; left;
      unfold avatar_declarations;
      cbn [wireframe stereo more_layers backend_gs_instancing APIType_eqb];
      destruct p, w, st, ml; try discriminate Hlayered; find_in.
Qed.

(** ** The Vulkan target *)

Lemma vulkan_of_opengl_Generate (g : Globals) (hc : ShaderHostConfig)
  (uid : geometry_shader_uid_data) :
  vr hc = false ->
  vulkan_of_opengl (Generate g OpenGL hc uid) = Generate g Vulkan hc uid.
Proof.
  intros Hvr.
  unfold GenerateGeometryShaderCode, vulkan_of_opengl.
  split_seq.
  - transform_pieces vulkan_of_opengl_EmitVertex.
  - transform_pieces vulkan_of_opengl_EmitVertex.
  - transform_pieces vulkan_of_opengl_EmitVertex.
  - transform_pieces vulkan_of_opengl_EmitVertex.
  - unfold Write; cbn; reflexivity.
  - unfold gs_vertex_fetch. rewrite Hvr.
    transform_pieces vulkan_of_opengl_EmitVertex.
  - transform_pieces vulkan_of_opengl_EmitVertex.
  - transform_pieces vulkan_of_opengl_EmitVertex.
Qed.

Lemma add_flip_Generate (g : Globals) (hc : ShaderHostConfig)
  (uid : geometry_shader_uid_data) :
  vr hc = false -> backend_depth_clamp hc = false ->
  add_flip (Generate g OpenGL hc uid) = Generate g Vulkan hc uid.
Proof.
  intros Hvr Hdc.
  pose proof (fun v w pl fv => add_flip_EmitVertex hc uid v w pl fv Hdc) as HEmit.
  unfold GenerateGeometryShaderCode, add_flip.
  split_seq.
  - transform_pieces HEmit.
  - transform_pieces HEmit.
  - transform_pieces HEmit.
  - transform_pieces HEmit.
  - unfold Write; cbn; reflexivity.
  - unfold gs_vertex_fetch. rewrite Hvr, Hdc. transform_pieces HEmit.
  - transform_pieces HEmit.
  - transform_pieces HEmit.
Qed.

(** Outside the emissions no piece flips [gl_Position.y], emits a vertex
    or writes [gl_ClipDistance]. *)
Lemma emission_free_pieces (p : Emit -> bool) (g : Globals) (api : APIType)
  (hc : ShaderHostConfig) (uid : geometry_shader_uid_data) :
  p = is_y_flip \/ p = is_vertex_emission \/ p = is_clip_write ->
  count p (declarations g api hc uid) = 0%nat /\
  count p (gs_primitive_setup I_LINEPTPARAMS g api uid) = 0%nat /\
  count p (gs_eye_open hc) = 0%nat /\
  count p (gs_vertex_fetch I_STEREOPARAMS g api hc uid) = 0%nat.
Proof.
  intros [-> | [-> | ->]]; repeat split; destruct api; count_piece.
Qed.

(** The flips and the vertex emissions of the two pieces that emit. *)
Lemma flips_of_emitting_pieces (g : Globals) (hc : ShaderHostConfig)
  (uid : geometry_shader_uid_data) :
  (count is_y_flip (gs_expand I_TEXOFFSET g Vulkan hc uid) =
   count is_vertex_emission (gs_expand I_TEXOFFSET g Vulkan hc uid) /\
   count is_y_flip (gs_close g Vulkan hc uid) =
   count is_vertex_emission (gs_close g Vulkan hc uid)) /\
  (count is_y_flip (gs_expand I_TEXOFFSET g OpenGL hc uid) = 0%nat /\
   count is_y_flip (gs_close g OpenGL hc uid) = 0%nat) /\
  (count is_clip_write (gs_expand I_TEXOFFSET g Vulkan hc uid) = 0%nat /\
   count is_clip_write (gs_close g Vulkan hc uid) = 0%nat).
Proof.
  split; [ | split ]; split; count_piece.
Qed.

(** The number of flips of the output is its number of vertex emissions on
    Vulkan, and zero on OpenGL; the Vulkan output writes no clip
    distance at an emission. *)
Lemma flips_of_Generate (g : Globals) (hc : ShaderHostConfig)
  (uid : geometry_shader_uid_data) :
  count is_y_flip (Generate g Vulkan hc uid) =
  count is_vertex_emission (Generate g Vulkan hc uid) /\
  count is_y_flip (Generate g OpenGL hc uid) = 0%nat /\
  count is_clip_write (Generate g Vulkan hc uid) = 0%nat.
Proof.
  destruct (emission_free_pieces is_y_flip g Vulkan hc uid (or_introl eq_refl))
    as (Fd & Fs & Fo & Ff).
  destruct (emission_free_pieces is_vertex_emission g Vulkan hc uid
              (or_intror (or_introl eq_refl)))
    as (Ed & Es & Eo & Ef).
  destruct (emission_free_pieces is_y_flip g OpenGL hc uid (or_introl eq_refl))
    as (Gd & Gs & _ & Gf).
  destruct (emission_free_pieces is_clip_write g Vulkan hc uid
              (or_intror (or_intror eq_refl)))
    as (Cd & Cs & Co & Cf).
  destruct (flips_of_emitting_pieces g hc uid)
    as ((Vx & Vc) & (Ox & Oc) & (Kx & Kc)).
  unfold GenerateGeometryShaderCode.
  repeat rewrite count_app.
  rewrite Fd, Fs, Fo, Ff, Ed, Es, Eo, Ef, Gd, Gs, Gf, Cd, Cs, Co, Cf.
  rewrite Vx, Vc, Ox, Oc, Kx, Kc.
  destruct (wireframe hc); repeat split; vm_compute; reflexivity.
Qed.

(** X17: with [vr] unset, the Vulkan output is the OpenGL output in which
    every assignment of [gl_Position] is followed by one added line negating
    [gl_Position.y], one per vertex emission, the writes of
    [gl_ClipDistance] that OpenGL makes under depth clamp are missing, and
    the helper routines receive the Vulkan API value.  Without depth clamp
    the added line is the only difference in the writes of the generator. *)
Theorem vulkan_is_opengl_with_flip (g : Globals) (hc : ShaderHostConfig)
  (uid : geometry_shader_uid_data) (Hvr : vr hc = false) :
  Generate g Vulkan hc uid = vulkan_of_opengl (Generate g OpenGL hc uid) /\
  (if backend_depth_clamp hc
   then count is_clip_write (Generate g Vulkan hc uid) = 0%nat
   else Generate g Vulkan hc uid = add_flip (Generate g OpenGL hc uid)) /\
  count is_y_flip (Generate g Vulkan hc uid) =
    count is_vertex_emission (Generate g Vulkan hc uid) /\
  count is_y_flip (Generate g OpenGL hc uid) = 0%nat.
Proof.
  destruct (flips_of_Generate g hc uid) as (Hflips & Hnone & Hclip).
  split; [ symmetry; apply vulkan_of_opengl_Generate; exact Hvr | ].
  split; [ | split; assumption ].
  destruct (backend_depth_clamp hc) eqn:Hdc; [ exact Hclip | ].
  symmetry. apply add_flip_Generate; assumption.
Qed.

(** ** Lines *)


End Output.

(** ** The properties at the sample instance *)

Ltac not_in_by_computation :=
  let H := fresh "H" in
  intros H; vm_compute in H;
  repeat (destruct H as [H | H]; [ discriminate H | ]);
  exact H.

(** Against C2 as stated: with instancing but neither stereo nor
    more_layers the output binds no [eye], and without instancing and
    without those flags it has no loop over the layers. *)
Lemma layer_law_counterexample :
  let generate := GenerateGeometryShaderCode Sample.stereoparams Sample.lineptparams
                                             Sample.texoffset Sample.globals in
  (backend_gs_instancing Sample.mono_instanced = true /\
   ~ In (Text (printf "\tint eye = InstanceID;\n" []))
        (generate OpenGL Sample.mono_instanced Sample.triangles0)) /\
  (backend_gs_instancing Sample.mono = false /\
   count is_eye_loop (generate OpenGL Sample.mono Sample.triangles0) = 0%nat).
Proof.
  cbv zeta. split; split; try reflexivity.
  not_in_by_computation.
Qed.


Lemma texgen_nudges_linear_witness :
  0 <= 1 < 2 /\
  In (Text (printf "\t\tr.tex%d.x += texOffset;\n" [D_ 1]))
     (GenerateGeometryShaderCode Sample.stereoparams Sample.lineptparams Sample.texoffset
                                 Sample.globals OpenGL Sample.mono Sample.lines2).
Proof.
  assert (Hi : 0 <= 1 < 2) by (split; [ discriminate | reflexivity ]).
  split; [ exact Hi | ].
  exact (proj1 (proj1 (proj2 (texgen_nudges_linear
                                Sample.stereoparams Sample.lineptparams Sample.texoffset
                                Sample.globals OpenGL Sample.mono Lines 2))
                      1 Hi)).
Defined.

Lemma avatar_eye_loop_bound_witness :
  (stereo Sample.four_layers || more_layers Sample.four_layers = true /\
   backend_gs_instancing Sample.four_layers = false) /\
  In (Text (printf "\tfor (int eye = 0; eye < 2; ++eye) {\n" []))
     (GenerateAvatarGeometryShader Sample.stereoparams Sample.lineptparams Sample.texoffset
                                   Sample.globals Points D3D Sample.four_layers) /\
  layers_of Sample.four_layers = 4.
Proof.
  split; [ split; reflexivity | ].
  pose proof (avatar_eye_loop_bound
                Sample.stereoparams Sample.lineptparams Sample.texoffset
                Sample.globals Points D3D Sample.four_layers eq_refl eq_refl) as H.
  cbv zeta in H.
  exact (conj (proj1 H) (proj1 (proj2 (proj2 H)))).
Defined.

(** C8: on a driver with the broken-clip-distance bug and a host
    configuration with depth clamp, the Vulkan output is not the OpenGL
    output with the flip added.  Both outputs copy the clip distances of
    the input vertex into [f]; the OpenGL output then writes them to
    [gl_ClipDistance] at the vertex emission and the Vulkan output never
    does: it is the OpenGL output with those writes dropped.  For the
    headset likewise, both outputs select [ps.layer] and only the OpenGL one
    assigns [gl_Layer]. *)
Theorem vulkan_differs_by_more_than_the_flip :
  let generate := GenerateGeometryShaderCode Sample.stereoparams Sample.lineptparams
                                             Sample.texoffset Sample.lit_globals in
  let opengl := generate OpenGL Sample.depth_clamped Sample.triangles0 in
  let vulkan := generate Vulkan Sample.depth_clamped Sample.triangles0 in
  let opengl_vr := generate OpenGL Sample.headset Sample.triangles0 in
  let vulkan_vr := generate Vulkan Sample.headset Sample.triangles0 in
  (vulkan <> add_flip opengl /\
   vulkan = vulkan_of_opengl opengl /\
   count is_clip_forward opengl = 2%nat /\
   count is_clip_forward vulkan = 2%nat /\
   count is_clip_write opengl = 2%nat /\
   count is_clip_write vulkan = 0%nat) /\
  (vulkan_vr <> add_flip opengl_vr /\
   count is_layer_select opengl_vr = 1%nat /\
   count is_layer_select vulkan_vr = 1%nat /\
   count is_gl_layer opengl_vr = 1%nat /\
   count is_gl_layer vulkan_vr = 0%nat).
Proof.
  cbv zeta. split.
  - split.
    + intros Heq.
      assert (Hcount : count is_clip_write
                         (GenerateGeometryShaderCode
                            Sample.stereoparams Sample.lineptparams Sample.texoffset
                            Sample.lit_globals Vulkan Sample.depth_clamped
                            Sample.triangles0) = 2%nat).
      { rewrite Heq. vm_compute. reflexivity. }
      vm_compute in Hcount. discriminate Hcount.
    + split; [ vm_compute; reflexivity | ].
      split; [ vm_compute; reflexivity | ].
      split; [ vm_compute; reflexivity | ].
      split; vm_compute; reflexivity.
  - split.
    + intros Heq.
      assert (Hcount : count is_gl_layer
                         (GenerateGeometryShaderCode
                            Sample.stereoparams Sample.lineptparams Sample.texoffset
                            Sample.lit_globals Vulkan Sample.headset
                            Sample.triangles0) = 1%nat).
      { rewrite Heq. vm_compute. reflexivity. }
      vm_compute in Hcount. discriminate Hcount.
    + split; [ vm_compute; reflexivity | ].
      split; [ vm_compute; reflexivity | ].
      split; vm_compute; reflexivity.
Qed.

Lemma vulkan_is_opengl_with_flip_witness :
  let generate := GenerateGeometryShaderCode Sample.stereoparams Sample.lineptparams
                                             Sample.texoffset Sample.globals in
  vr Sample.stereo_looped = false /\
  generate Vulkan Sample.stereo_looped Sample.lines2 =
    vulkan_of_opengl (generate OpenGL Sample.stereo_looped Sample.lines2).
Proof.
  split; [ reflexivity | ].
  exact (proj1 (vulkan_is_opengl_with_flip
                  Sample.stereoparams Sample.lineptparams Sample.texoffset
                  Sample.globals Sample.stereo_looped Sample.lines2 eq_refl)).
Defined.

(** The single-precision arithmetic rounds, overflows to an infinity on a
    division by zero, and compares a NaN as not greater. *)
Lemma binary32_rounds_as_ieee :
  fadd binary32 (Sample.single 16777216) (Sample.single 1) = Sample.single 16777216 /\
  fdiv binary32 (Sample.single 1) (Sample.single 3) = S754_finite false 11184811 (-25) /\
  fdiv binary32 (Sample.single 1) (Sample.single 0) = S754_infinity false /\
  fdiv binary32 (Sample.single 0) (Sample.single 0) = S754_nan /\
  fgt binary32 S754_nan (Sample.single 0) = false.
Proof.
  repeat split; vm_compute; reflexivity.
Qed.


(** * Further properties of the generators *)

(** ** One vertex emission, continued *)

Section OneEmissionMore.

Variables (hc : ShaderHostConfig) (uid : geometry_shader_uid_data)
          (vertex : string) (w pl first_vertex : bool).

Ltac by_cases_on api :=
  unfold EmitVertex, AssignVSOutputMembers, skip;
  destruct api; cbn [APIType_eqb is_glsl orb andb];
  decide_branches; vm_compute; reflexivity.

Lemma EmitVertex_remembers (api : APIType) :
  count is_remember (EmitVertex hc uid vertex api w pl first_vertex) =
  if w && first_vertex then 1%nat else 0%nat.
Proof. by_cases_on api. Qed.

Lemma EmitVertex_first_decls (api : APIType) :
  count is_first_decl (EmitVertex hc uid vertex api w pl first_vertex) = 0%nat.
Proof. by_cases_on api. Qed.

Lemma EmitVertex_layer_members (api : APIType) :
  count is_layer_member (EmitVertex hc uid vertex api w pl first_vertex) = 0%nat.
Proof. by_cases_on api. Qed.

Lemma EmitVertex_eye_intros (api : APIType) :
  count is_eye_intro (EmitVertex hc uid vertex api w pl first_vertex) = 0%nat.
Proof. by_cases_on api. Qed.

Lemma EmitVertex_layer_selects (api : APIType) :
  count is_layer_select (EmitVertex hc uid vertex api w pl first_vertex) = 0%nat.
Proof. by_cases_on api. Qed.

Lemma EmitVertex_clip_forwards (api : APIType) :
  count is_clip_forward (EmitVertex hc uid vertex api w pl first_vertex) = 0%nat.
Proof. by_cases_on api. Qed.

Lemma EmitVertex_output_bounds (api : APIType) :
  count is_output_bound (EmitVertex hc uid vertex api w pl first_vertex) = 0%nat.
Proof. by_cases_on api. Qed.

Lemma EmitVertex_members_calls (api : APIType) :
  count is_members_call (EmitVertex hc uid vertex api w pl first_vertex) = 0%nat.
Proof. by_cases_on api. Qed.

Lemma EmitVertex_assign_calls (api : APIType) :
  count is_assign_call (EmitVertex hc uid vertex api w pl first_vertex) =
  if is_glsl api then 1%nat else 0%nat.
Proof. by_cases_on api. Qed.

Lemma EmitVertex_clip_writes_any (api : APIType) :
  count is_clip_write (EmitVertex hc uid vertex api w pl first_vertex) =
  if APIType_eqb api OpenGL && backend_depth_clamp hc then 2%nat else 0%nat.
Proof. by_cases_on api. Qed.

Lemma EmitVertex_glsl_writes_d3d :
  count is_glsl_write (EmitVertex hc uid vertex D3D w pl first_vertex) = 0%nat.
Proof.
  unfold EmitVertex, skip. cbn [APIType_eqb is_glsl orb].
  decide_branches; vm_compute; reflexivity.
Qed.

Lemma EmitVertex_hlsl_writes (api : APIType) :
  count is_hlsl_write (EmitVertex hc uid vertex api w pl first_vertex) =
  if is_glsl api then 0%nat else 2%nat.
Proof. by_cases_on api. Qed.

Lemma EmitVertex_end_primitives (api : APIType) :
  count is_end_primitive (EmitVertex hc uid vertex api w pl first_vertex) = 0%nat.
Proof. by_cases_on api. Qed.

Lemma EmitVertex_threaded (api : APIType) :
  Forall (threaded (numTexGens uid) pl)
         (EmitVertex hc uid vertex api w pl first_vertex).
Proof.
  unfold EmitVertex, AssignVSOutputMembers, Write, skip.
  destruct api; cbn [APIType_eqb is_glsl orb andb];
    decide_branches; repeat constructor.
Qed.

End OneEmissionMore.

(** As [count_structure], with the further readings of a vertex
    emission. *)
Ltac count_more :=
  lazymatch goal with
  | |- count _ (app _ _) = _ =>
      apply count_seq_eq; count_more
  | |- count is_remember (EmitVertex _ _ _ _ _ _ _) = _ =>
      apply EmitVertex_remembers
  | |- count is_first_decl (EmitVertex _ _ _ _ _ _ _) = _ =>
      apply EmitVertex_first_decls
  | |- count is_layer_member (EmitVertex _ _ _ _ _ _ _) = _ =>
      apply EmitVertex_layer_members
  | |- count is_eye_intro (EmitVertex _ _ _ _ _ _ _) = _ =>
      apply EmitVertex_eye_intros
  | |- count is_eye_binding (EmitVertex _ _ _ _ _ _ _) = _ =>
      apply EmitVertex_eye_bindings
  | |- count is_layer_select (EmitVertex _ _ _ _ _ _ _) = _ =>
      apply EmitVertex_layer_selects
  | |- count is_clip_forward (EmitVertex _ _ _ _ _ _ _) = _ =>
      apply EmitVertex_clip_forwards
  | |- count is_output_bound (EmitVertex _ _ _ _ _ _ _) = _ =>
      apply EmitVertex_output_bounds
  | |- count is_members_call (EmitVertex _ _ _ _ _ _ _) = _ =>
      apply EmitVertex_members_calls
  | |- count is_assign_call (EmitVertex _ _ _ _ _ _ _) = _ =>
      apply EmitVertex_assign_calls
  | |- count is_clip_write (EmitVertex _ _ _ _ _ _ _) = _ =>
      apply EmitVertex_clip_writes_any
  | |- count is_glsl_write (EmitVertex _ _ _ D3D _ _ _) = _ =>
      apply EmitVertex_glsl_writes_d3d
  | |- count is_hlsl_write (EmitVertex _ _ _ _ _ _ _) = _ =>
      apply EmitVertex_hlsl_writes
  | |- count is_end_primitive (EmitVertex _ _ _ _ _ _ _) = _ =>
      apply EmitVertex_end_primitives
  | |- _ => count_structure
  end.

(** Evaluates [count p code = k] for a sequence whose flags are
    constants. *)
Ltac count_closed :=
  unfold GenerateGeometryShaderCode, GenerateAvatarGeometryShader;
  unfold_pieces;
  cbn [wireframe msaa ssaa stereo vr more_layers backend_gs_instancing
       backend_depth_clamp primitive_type numTexGens
       APIType_eqb is_glsl orb andb negb to_u32 Z.eqb Pos.eqb];
  decide_branches;
  (etransitivity; [ count_more | vm_compute; reflexivity ]).

(** Splits the count over the output of the general generator into the
    counts of its pieces, for a key whose primitive is a constant, and
    discharges the two per-texgen loops, which write nothing of what is
    counted. *)
Ltac loops_write_none :=
  repeat match goal with
         | |- context [count ?p (gs_line_nudges ?T ?n)] =>
             replace (count p (gs_line_nudges T n)) with 0%nat
               by (symmetry; unfold gs_line_nudges; apply count_for_u32_none;
                   intros; vm_compute; reflexivity)
         | |- context [count ?p (gs_point_nudges ?T ?n)] =>
             replace (count p (gs_point_nudges T n)) with 0%nat
               by (symmetry; unfold gs_point_nudges; apply count_for_u32_none;
                   intros; vm_compute; reflexivity)
         end.

Ltac count_split :=
  unfold GenerateGeometryShaderCode, gs_expand;
  cbn [primitive_type numTexGens to_u32 Z.eqb Pos.eqb];
  repeat rewrite count_app;
  loops_write_none.

(** Decides every flag the generator branches on and evaluates. *)
Ltac all_flags w st v ml gi dc bug :=
  destruct w, st, v, ml, gi, dc, bug; vm_compute; reflexivity.

Lemma Forall_for_u32 (P : Emit -> Prop) (n : Z) (body : Z -> ShaderCode) :
  (forall i, Forall P (body i)) -> Forall P (for_u32 n body).
Proof.
  intros Hbody. unfold for_u32.
  induction (map Z.of_nat (seq 0 (Z.to_nat n))) as [| i rest IH]; [ constructor | ].
  cbn [flat_map]. apply Forall_app. split; [ apply Hbody | exact IH ].
Qed.

(** Proves a property of every write of a sequence by its structure. *)
Ltac forall_structure :=
  lazymatch goal with
  | |- Forall _ (app _ _) =>
      apply Forall_app; split; forall_structure
  | |- Forall _ (EmitVertex ?hc ?uid ?vertex ?api ?w ?pl ?fv) =>
      exact (EmitVertex_threaded hc uid vertex w pl fv api)
  | |- Forall _ (for_u32 _ _) =>
      apply Forall_for_u32; intros; unfold Write; repeat constructor
  | |- Forall _ (if ?c then _ else _) =>
      destruct c; forall_structure
  | |- _ => unfold Write; repeat constructor
  end.

Section MoreOutput.

Variables I_STEREOPARAMS I_LINEPTPARAMS I_TEXOFFSET : string.

Local Abbreviation Generate :=
  (GenerateGeometryShaderCode I_STEREOPARAMS I_LINEPTPARAMS I_TEXOFFSET).
Local Abbreviation GenerateAvatar :=
  (GenerateAvatarGeometryShader I_STEREOPARAMS I_LINEPTPARAMS I_TEXOFFSET).

(** ** The vertices one pass emits *)

(** X1: nothing is emitted before the loop over the input vertices; the
    body of that loop emits 2 vertices on lines, 4 on points and 1 on
    triangles and strips; after the loop one more vertex is emitted under
    wireframe and none otherwise.  One pass over the [vertex_in] inputs so
    emits exactly the declared [vertex_out] vertices on points, lines and
    triangle strips, and one fewer on triangles. *)
Theorem emitted_vertices_within_bound (g : Globals) (api : APIType)
  (hc : ShaderHostConfig) (p : PrimitiveType) (n : Z) :
  let uid := {| numTexGens := n; primitive_type := to_u32 p |} in
  let emitted := vertex_in_of (to_u32 p) * Z.of_nat (emissions_per_vertex p)
                 + Z.b2z (wireframe hc) in
  (exists before body after : ShaderCode,
      Generate g api hc uid =
        before ;;
        Write "\tfor (int i = 0; i < %d; ++i) {\n" [D_ (vertex_in_of (to_u32 p))] ;;
        body ;;
        Write "\t}\n" [] ;;
        after /\
      count is_vertex_emission before = 0%nat /\
      count is_vertex_emission body = emissions_per_vertex p /\
      count is_vertex_emission after = Nat.b2n (wireframe hc)) /\
  match p with
  | Triangles => emitted + 1 = vertex_out_of (to_u32 p) (wireframe hc)
  | Points | Lines | TriangleStrip => emitted = vertex_out_of (to_u32 p) (wireframe hc)
  end.
Proof.
  cbv zeta. split.
  - exists (gs_declarations I_STEREOPARAMS I_LINEPTPARAMS I_TEXOFFSET g api hc
              {| numTexGens := n; primitive_type := to_u32 p |} ;;
            gs_primitive_setup I_LINEPTPARAMS g api
              {| numTexGens := n; primitive_type := to_u32 p |} ;;
            gs_eye_open hc ;;
            (if wireframe hc then Write "\tVS_OUTPUT first;\n" [] else skip)).
    exists (gs_vertex_fetch I_STEREOPARAMS g api hc
              {| numTexGens := n; primitive_type := to_u32 p |} ;;
            gs_expand I_TEXOFFSET g api hc
              {| numTexGens := n; primitive_type := to_u32 p |}).
    exists (EndPrimitive hc {| numTexGens := n; primitive_type := to_u32 p |} api
              (wireframe hc) (bEnablePixelLighting (g_ActiveConfig g)) ;;
            (if (stereo hc || more_layers hc) && negb (backend_gs_instancing hc)
             then Write "\t}\n" [] else skip) ;;
            Write "}\n" []).
    split; [ | split; [ | split ] ].
    + unfold GenerateGeometryShaderCode, gs_close.
      repeat rewrite <- app_assoc. reflexivity.
    + destruct api; count_closed.
    + destruct api, p; count_closed.
    + destruct api, (wireframe hc); count_closed.
  - destruct p, (wireframe hc); reflexivity.
Qed.

(** ** The two dialects *)

(** X2: the HLSL output holds none of the writes of the GLSL branches and
    calls [AssignVSOutputMembers] nowhere; the OpenGL and Vulkan outputs
    hold none of the writes of the HLSL branches. *)
Theorem dialects_do_not_mix (g : Globals) (hc : ShaderHostConfig)
  (p : PrimitiveType) (n : Z) :
  let uid := {| numTexGens := n; primitive_type := to_u32 p |} in
  count is_glsl_write (Generate g D3D hc uid) = 0%nat /\
  count is_assign_call (Generate g D3D hc uid) = 0%nat /\
  count is_hlsl_write (Generate g OpenGL hc uid) = 0%nat /\
  count is_hlsl_write (Generate g Vulkan hc uid) = 0%nat.
Proof.
  cbv zeta.
  destruct hc as [w ms ss st v ml gi dc], g as [cfg bug xf].
  repeat split; destruct p; count_split; all_flags w st v ml gi dc bug.
Qed.

(** ** Clip distances *)

(** X3: [gl_ClipDistance] is written twice per vertex emission on OpenGL
    under depth clamp, and nowhere on Vulkan, on D3D or without depth
    clamp; the clip distances of the input vertex are copied, in two
    statements, exactly when the dialect is GLSL, depth clamp is on and the
    driver has the broken-clip-distance bug. *)
Theorem clip_distance_writes (g : Globals) (api : APIType)
  (hc : ShaderHostConfig) (p : PrimitiveType) (n : Z) :
  let uid := {| numTexGens := n; primitive_type := to_u32 p |} in
  count is_clip_write (Generate g api hc uid) =
    (if APIType_eqb api OpenGL && backend_depth_clamp hc
     then 2 * (emissions_per_vertex p + Nat.b2n (wireframe hc))
     else 0)%nat /\
  count is_clip_forward (Generate g api hc uid) =
    (if is_glsl api && backend_depth_clamp hc && HasBug_BROKEN_CLIP_DISTANCE g
     then 2 else 0)%nat.
Proof.
  cbv zeta.
  destruct hc as [w ms ss st v ml gi dc], g as [cfg bug xf].
  cbn [wireframe backend_depth_clamp HasBug_BROKEN_CLIP_DISTANCE].
  split; destruct p; count_split; destruct api; all_flags w st v ml gi dc bug.
Qed.

(** ** Layers *)

(** X4: the output interface has a layer member, and the body introduces
    [eye], exactly when stereo or more_layers is set; the layer is selected
    from [eye] once per input vertex exactly when vr, stereo or more_layers
    is set.  Under vr alone the selection is therefore written although
    nothing introduces [eye] and no layer member is declared. *)
Theorem layer_selection_guards (g : Globals) (api : APIType)
  (hc : ShaderHostConfig) (p : PrimitiveType) (n : Z) :
  let code := Generate g api hc {| numTexGens := n; primitive_type := to_u32 p |} in
  count is_layer_member code = Nat.b2n (stereo hc || more_layers hc) /\
  count is_eye_intro code = Nat.b2n (stereo hc || more_layers hc) /\
  count is_layer_select code = Nat.b2n (vr hc || stereo hc || more_layers hc).
Proof.
  cbv zeta.
  destruct hc as [w ms ss st v ml gi dc], g as [cfg bug xf].
  cbn [stereo more_layers vr].
  repeat split; destruct p; count_split; destruct api; all_flags w st v ml gi dc bug.
Qed.

(** X5: [eye] is bound to [InstanceID] exactly when the layers are
    instanced and stereo or more_layers is set; and whenever the layers are
    instanced the output defines [InstanceID], by a [#define] in GLSL and
    as a parameter of [main] in HLSL. *)
Theorem instance_id_defined_when_bound (g : Globals) (api : APIType)
  (hc : ShaderHostConfig) (p : PrimitiveType) (n : Z) :
  let code := Generate g api hc {| numTexGens := n; primitive_type := to_u32 p |} in
  count is_eye_binding code =
    Nat.b2n (backend_gs_instancing hc && (stereo hc || more_layers hc)) /\
  if backend_gs_instancing hc then
    match api with
    | OpenGL | Vulkan =>
        In (Text (printf "#define InstanceID gl_InvocationID\n" [])) code
    | D3D =>
        In (Text (printf ("void main(%s VS_OUTPUT o[%d], inout %sStream<VertexData> output, in uint " ++
                          "InstanceID : SV_GSInstanceID)\n{\n")
                         [S_ (at_index primitives_d3d (to_u32 p));
                          D_ (vertex_in_of (to_u32 p));
                          S_ (if wireframe hc then "Line" else "Triangle")])) code
    end
  else count is_eye_binding code = 0%nat.
Proof.
  cbv zeta.
  destruct hc as [w ms ss st v ml gi dc], g as [cfg bug xf].
  cbn [stereo more_layers backend_gs_instancing wireframe].
  split; [ destruct p; count_split; destruct api; all_flags w st v ml gi dc bug | ].
  destruct gi;
    [ | destruct p; count_split;
        destruct api, w, st, v, ml, dc, bug; vm_compute; reflexivity ].
  destruct api; apply In_declarations; unfold gs_declarations;
    cbn [wireframe stereo more_layers backend_gs_instancing msaa ssaa
         primitive_type numTexGens is_glsl APIType_eqb orb];
    destruct p, w, st, ml; find_in.
Qed.

(** ** The end of the primitive *)

(** X7: the output ends the primitive exactly once, and nothing written
    after that end emits a vertex. *)
Theorem primitive_ended_once_after_emissions (g : Globals) (api : APIType)
  (hc : ShaderHostConfig) (p : PrimitiveType) (n : Z) :
  let code := Generate g api hc {| numTexGens := n; primitive_type := to_u32 p |} in
  count is_end_primitive code = 1%nat /\
  exists before after : ShaderCode,
    code = before ;;
           (if is_glsl api
            then Write "\tEndPrimitive();\n" []
            else Write "\toutput.RestartStrip();\n" []) ;;
           after /\
    count is_end_primitive before = 0%nat /\
    count is_vertex_emission after = 0%nat.
Proof.
  cbv zeta. split.
  - destruct hc as [w ms ss st v ml gi dc], g as [cfg bug xf].
    destruct p; count_split; destruct api; all_flags w st v ml gi dc bug.
  - exists (gs_declarations I_STEREOPARAMS I_LINEPTPARAMS I_TEXOFFSET g api hc
              {| numTexGens := n; primitive_type := to_u32 p |} ;;
            gs_primitive_setup I_LINEPTPARAMS g api
              {| numTexGens := n; primitive_type := to_u32 p |} ;;
            gs_eye_open hc ;;
            (if wireframe hc then Write "\tVS_OUTPUT first;\n" [] else skip) ;;
            Write "\tfor (int i = 0; i < %d; ++i) {\n" [D_ (vertex_in_of (to_u32 p))] ;;
            gs_vertex_fetch I_STEREOPARAMS g api hc
              {| numTexGens := n; primitive_type := to_u32 p |} ;;
            gs_expand I_TEXOFFSET g api hc
              {| numTexGens := n; primitive_type := to_u32 p |} ;;
            Write "\t}\n" [] ;;
            (if wireframe hc
             then EmitVertex hc {| numTexGens := n; primitive_type := to_u32 p |} "first"
                             api (wireframe hc) (bEnablePixelLighting (g_ActiveConfig g)) false
             else skip)).
    exists ((if (stereo hc || more_layers hc) && negb (backend_gs_instancing hc)
             then Write "\t}\n" [] else skip) ;;
            Write "}\n" []).
    split; [ | split ].
    + unfold GenerateGeometryShaderCode, gs_close, EndPrimitive.
      cbn [primitive_type].
      repeat rewrite <- app_assoc. reflexivity.
    + destruct hc as [w ms ss st v ml gi dc], g as [cfg bug xf].
      destruct p; count_split; destruct api; all_flags w st v ml gi dc bug.
    + decide_branches; vm_compute; reflexivity.
Qed.

(** ** The helpers of the absent headers *)

(** X8: every call of [GenerateVSOutputMembers] and of
    [AssignVSOutputMembers] in the output receives the [numTexGens] of the
    key and the pixel-lighting flag of the global configuration.  The
    members are declared three times in GLSL (the structure and the two
    interface blocks) and once in HLSL; the member-wise copy is called in
    GLSL once per input vertex the set-up reads, once per fetched vertex
    and once per vertex emission, and never in HLSL. *)
Theorem helpers_receive_key_and_lighting (g : Globals) (api : APIType)
  (hc : ShaderHostConfig) (p : PrimitiveType) (n : Z) :
  let code := Generate g api hc {| numTexGens := n; primitive_type := to_u32 p |} in
  Forall (threaded n (bEnablePixelLighting (g_ActiveConfig g))) code /\
  count is_members_call code = (if is_glsl api then 3 else 1)%nat /\
  count is_assign_call code =
    (if is_glsl api
     then setup_reads p + 1 + emissions_per_vertex p + Nat.b2n (wireframe hc)
     else 0)%nat.
Proof.
  cbv zeta. split; [ | split ].
  - unfold GenerateGeometryShaderCode. unfold_pieces.
    cbn [primitive_type numTexGens]. forall_structure.
  - destruct hc as [w ms ss st v ml gi dc], g as [cfg bug xf].
    destruct p; count_split; destruct api; all_flags w st v ml gi dc bug.
  - destruct hc as [w ms ss st v ml gi dc], g as [cfg bug xf].
    cbn [wireframe].
    destruct p; count_split; destruct api; all_flags w st v ml gi dc bug.
Qed.

(** ** Triangles and triangle strips *)

(** X9: for the same host configuration, API and number of texgens, the
    outputs for [Triangles] and for [TriangleStrip] hold one declaration of
    the output bound each and are equal in every other write. *)
Theorem triangles_and_strips_differ_in_bound_only (g : Globals) (api : APIType)
  (hc : ShaderHostConfig) (n : Z) :
  let generate (p : PrimitiveType) :=
    Generate g api hc {| numTexGens := n; primitive_type := to_u32 p |} in
  filter (fun e => negb (is_output_bound e)) (generate Triangles) =
  filter (fun e => negb (is_output_bound e)) (generate TriangleStrip) /\
  count is_output_bound (generate Triangles) = 1%nat /\
  count is_output_bound (generate TriangleStrip) = 1%nat.
Proof.
  cbv zeta.
  destruct hc as [w ms ss st v ml gi dc], g as [cfg bug xf].
  split; [ | split ].
  - destruct api, w, st, v, ml, gi, dc, bug; vm_compute; reflexivity.
  - count_split; destruct api; all_flags w st v ml gi dc bug.
  - count_split; destruct api; all_flags w st v ml gi dc bug.
Qed.

(** ** The avatar variant, continued *)

(** X10: the avatar variant recognises OpenGL only: its OpenGL output
    holds no HLSL write and its D3D output no GLSL write, but given Vulkan
    it declares the uniform block in HLSL ([cbuffer]) while its vertex
    emissions are written in GLSL ([EmitVertex()]).  In every case it emits
    as many vertices as the general generator. *)
Theorem avatar_dialects (g : Globals) (p : PrimitiveType) (hc : ShaderHostConfig) :
  count is_hlsl_write (GenerateAvatar g p OpenGL hc) = 0%nat /\
  count is_glsl_write (GenerateAvatar g p D3D hc) = 0%nat /\
  (0 < count is_hlsl_write (GenerateAvatar g p Vulkan hc) /\
   0 < count is_glsl_write (GenerateAvatar g p Vulkan hc))%nat /\
  forall api,
    count is_vertex_emission (GenerateAvatar g p api hc) =
    (emissions_per_vertex p + Nat.b2n (wireframe hc))%nat.
Proof.
  destruct hc as [w ms ss st v ml gi dc], g as [[sm wf pl pr bl] bug xf].
  cbn [wireframe].
  repeat split; try intros api; try destruct api;
    destruct p, w, st, v, ml, gi, dc, bl;
    first [ vm_compute; reflexivity | apply Nat.ltb_lt; vm_compute; reflexivity ].
Qed.

End MoreOutput.

(** ** The enumerator, continued *)

Lemma to_u32_injective (p q : PrimitiveType) : to_u32 p = to_u32 q -> p = q.
Proof.
  destruct p, q; cbn; intros H; try reflexivity; discriminate H.
Qed.

(** X11: the key [GetGeometryShaderUid] builds for a primitive is among the
    enumerated keys exactly when the register holds between 0 and 8
    texgens and the primitive is not the triangle topology the enumerator
    leaves out: [Triangles] when primitive restart is supported,
    [TriangleStrip] when it is not. *)
Theorem enumerated_covers_live_keys (g : Globals) (p : PrimitiveType) :
  In (GetGeometryShaderUid g p) (enumerated g) <->
  0 <= xfmem_numTexGens g <= 8 /\
  p <> (if bSupportsPrimitiveRestart (g_ActiveConfig g) then Triangles else TriangleStrip).
Proof.
  rewrite enumerated_by_flag. unfold GetGeometryShaderUid.
  rewrite in_flat_map. split.
  - intros (q & Hq & Hin).
    apply in_map_iff in Hin. destruct Hin as (k & Hk & Hseq).
    apply in_seq in Hseq. injection Hk as Hn Hp.
    apply to_u32_injective in Hp. subst q.
    split; [ lia | ].
    destruct (bSupportsPrimitiveRestart (g_ActiveConfig g));
      cbn in Hq; intros ->; intuition discriminate.
  - intros [Hn Hp].
    exists p. split.
    + destruct (bSupportsPrimitiveRestart (g_ActiveConfig g)), p;
        cbn; try tauto; exfalso; apply Hp; reflexivity.
    + apply in_map_iff. exists (Z.to_nat (xfmem_numTexGens g)). split.
      * f_equal. lia.
      * apply in_seq. lia.
Qed.

(** X12: among the enumerated keys the nine of the triangle topology are
    passthrough, and no other, when the global configuration has neither
    stereo mode nor wireframe on; with either on, no enumerated key is
    passthrough. *)
Theorem passthrough_among_enumerated (g : Globals) :
  filter (IsPassthrough g) (enumerated g) =
  if (iStereoMode (g_ActiveConfig g) >? 0) || bWireFrame (g_ActiveConfig g)
  then []
  else firstn 9 (enumerated g).
Proof.
  rewrite enumerated_by_flag.
  destruct g as [[sm wf pl pr bl] bug xf].
  unfold IsPassthrough.
  cbn [g_ActiveConfig iStereoMode bWireFrame bSupportsPrimitiveRestart].
  destruct (sm >? 0), wf, pr; reflexivity.
Qed.

(** ** The counts, continued *)

(** X13: whatever the 32-bit value of the primitive type, the vertex and
    layer counts are small: between 1 and 4 layers, 3 to 5 output vertices,
    at most 3 input vertices, so the product declared as the output bound
    never wraps; the input count is 0 only for the one value whose
    successor wraps. *)
Theorem counts_never_wrap (primitive_type_index : Z) (hc : ShaderHostConfig)
  (w : bool) :
  1 <= layers_of hc <= 4 /\
  3 <= vertex_out_of primitive_type_index w <= 5 /\
  0 <= vertex_in_of primitive_type_index <= 3 /\
  wrap32 (vertex_out_of primitive_type_index w * layers_of hc) =
    vertex_out_of primitive_type_index w * layers_of hc /\
  (vertex_in_of primitive_type_index = 0 <-> (primitive_type_index + 1) mod 2 ^ 32 = 0).
Proof.
  assert (Hl : 1 <= layers_of hc <= 4).
  { rewrite layers_of_eq. destruct (more_layers hc), (stereo hc); cbn; lia. }
  assert (Ho : 3 <= vertex_out_of primitive_type_index w <= 5).
  { unfold vertex_out_of.
    destruct (primitive_type_index =? to_u32 TriangleStrip), w; vm_compute;
      split; discriminate. }
  assert (Hm : 0 <= (primitive_type_index + 1) mod 2 ^ 32 < 2 ^ 32)
    by (apply Z.mod_pos_bound; reflexivity).
  repeat split; try lia.
  - unfold vertex_in_of, wrap32. lia.
  - unfold vertex_in_of, wrap32. lia.
  - unfold wrap32. apply Z.mod_small. nia.
  - unfold vertex_in_of, wrap32. lia.
  - unfold vertex_in_of, wrap32. lia.
Qed.

(** ** Formats around an identifier *)

Lemma ident_char_is_plain (c : ascii) :
  is_ident_char c = true ->
  (c =? "\")%char = false /\ (c =? "%")%char = false /\
  (c =? "{")%char = false /\ (c =? "}")%char = false /\
  (" " =? c)%char = false.
Proof.
  destruct c as [b0 b1 b2 b3 b4 b5 b6 b7].
  destruct b0, b1, b2, b3, b4, b5, b6, b7; vm_compute; intros H;
    first [ discriminate H | repeat split ].
Qed.

Lemma printf_identifier (X rest : string) (args : list Arg) :
  identifier X = true -> printf (X ++ rest) args = (X ++ printf rest args)%string.
Proof.
  induction X as [| c X IH]; intros HX; [ reflexivity | ].
  cbn [identifier] in HX. apply andb_true_iff in HX. destruct HX as [Hc HX].
  destruct (ident_char_is_plain c Hc) as (Hb & Hp & _).
  cbn [append printf]. rewrite Hb, Hp, (IH HX). reflexivity.
Qed.

Lemma braces_app (a b : string) : braces (a ++ b) = braces a + braces b.
Proof.
  induction a as [| c a IH]; [ reflexivity | ].
  cbn [append braces]. rewrite IH. lia.
Qed.

Lemma braces_identifier (X : string) : identifier X = true -> braces X = 0.
Proof.
  induction X as [| c X IH]; intros HX; [ reflexivity | ].
  cbn [identifier] in HX. apply andb_true_iff in HX. destruct HX as [Hc HX].
  destruct (ident_char_is_plain c Hc) as (_ & _ & Ho & Hc' & _).
  cbn [braces]. rewrite Ho, Hc', (IH HX). reflexivity.
Qed.

Lemma braces_of_digits (d : Decimal.uint) :
  braces (NilEmpty.string_of_uint d) = 0.
Proof.
  induction d; cbn [NilEmpty.string_of_uint braces]; try rewrite IHd; reflexivity.
Qed.

Lemma braces_dec (n : Z) : braces (dec n) = 0.
Proof.
  unfold dec, NilZero.string_of_int, NilZero.string_of_uint.
  destruct (Z.to_int n) as [d | d]; destruct d;
    cbn [braces]; try rewrite braces_of_digits; try reflexivity;
    cbn [NilEmpty.string_of_uint braces]; rewrite braces_of_digits; reflexivity.
Qed.

Lemma balance_app (a b : ShaderCode) : balance (a ;; b) = balance a + balance b.
Proof.
  unfold balance. induction a as [| e a IH]; [ reflexivity | ].
  cbn [app fold_right]. rewrite IH. lia.
Qed.

Lemma balance_for_u32 (n : Z) (body : Z -> ShaderCode) :
  (forall i, balance (body i) = 0) -> balance (for_u32 n body) = 0.
Proof.
  intros Hbody. unfold for_u32.
  induction (map Z.of_nat (seq 0 (Z.to_nat n))) as [| i rest IH]; [ reflexivity | ].
  cbn [flat_map]. rewrite balance_app, Hbody, IH. reflexivity.
Qed.


(** ** Braces of a formatted write *)

Lemma braces_cons (c : ascii) (s : string) :
  braces (String c s) =
  (if (c =? "{")%char then 1 else if (c =? "}")%char then -1 else 0) + braces s.
Proof. reflexivity. Qed.

Lemma braces_escape (e : ascii) (s : string) :
  braces (String (escape e) s) = braces (String e s).
Proof.
  unfold escape.
  destruct (e =? "t")%char eqn:Ht; [ apply Ascii.eqb_eq in Ht; subst e; reflexivity | ].
  destruct (e =? "n")%char eqn:Hn; [ apply Ascii.eqb_eq in Hn; subst e; reflexivity | ].
  reflexivity.
Qed.

Lemma braces_show (conv : ascii) (a : Arg) : brace_free a -> braces (show conv a) = 0.
Proof.
  destruct a as [s | n]; cbn [show brace_free]; intros H.
  - destruct (conv =? "s")%char; [ exact H | reflexivity ].
  - destruct (conv =? "d")%char; [ apply braces_dec | reflexivity ].
Qed.

Lemma braces_printf_literal_bounded (m : nat) :
  forall (L rest : string) (args : list Arg),
    (String.length L <= m)%nat -> closed_literal L = true ->
    braces (printf (L ++ rest) args) = braces L + braces (printf rest args).
Proof.
  induction m as [| m IH]; intros L rest args Hlen HL.
  - destruct L; [ cbn; lia | cbn in Hlen; lia ].
  - destruct L as [| c L]; [ cbn; lia | ].
    cbn [closed_literal] in HL. cbn [append printf].
    destruct (c =? "\")%char eqn:Hb.
    + destruct L as [| e L]; [ discriminate HL | ].
      cbn [append]. rewrite braces_escape.
      rewrite !braces_cons. rewrite (IH L rest args); [ | cbn in Hlen; lia | exact HL ].
      apply Ascii.eqb_eq in Hb. subst c. cbn [Ascii.eqb Bool.eqb]. lia.
    + destruct (c =? "%")%char eqn:Hp; [ discriminate HL | ].
      rewrite !braces_cons. rewrite (IH L rest args); [ lia | cbn in Hlen; lia | exact HL ].
Qed.

Lemma braces_printf_literal (L rest : string) (args : list Arg) (r : Z) :
  closed_literal L = true ->
  braces (printf rest args) = r ->
  braces (printf (L ++ rest) args) = braces L + r.
Proof.
  intros HL <-. apply (braces_printf_literal_bounded (String.length L)); [ lia | exact HL ].
Qed.

Lemma braces_printf_identifier (X rest : string) (args : list Arg) (r : Z) :
  identifier X = true ->
  braces (printf rest args) = r ->
  braces (printf (X ++ rest) args) = r.
Proof.
  intros HX <-. rewrite (printf_identifier X rest args HX), braces_app,
    (braces_identifier X HX). reflexivity.
Qed.

Lemma braces_printf_tame_bounded (m : nat) :
  forall (fmt : string) (args : list Arg),
    (String.length fmt <= m)%nat -> tame fmt = true -> Forall brace_free args ->
    braces (printf fmt args) = braces fmt.
Proof.
  induction m as [| m IH]; intros fmt args Hlen Ht Hargs.
  - destruct fmt; [ reflexivity | cbn in Hlen; lia ].
  - destruct fmt as [| c fmt]; [ reflexivity | ].
    cbn [tame] in Ht. cbn [printf].
    destruct (c =? "\")%char eqn:Hb.
    + destruct fmt as [| e fmt]; [ reflexivity | ].
      rewrite braces_escape, !braces_cons.
      rewrite (IH fmt args); [ | cbn in Hlen; lia | exact Ht | exact Hargs ].
      apply Ascii.eqb_eq in Hb. subst c. cbn [Ascii.eqb Bool.eqb]. lia.
    + destruct (c =? "%")%char eqn:Hp.
      * destruct fmt as [| conv fmt]; [ reflexivity | ].
        apply andb_true_iff in Ht. destruct Ht as [Hconv Ht].
        apply andb_true_iff in Hconv. destruct Hconv as [Ho Hc].
        apply negb_true_iff in Ho, Hc.
        apply Ascii.eqb_eq in Hp. subst c.
        rewrite !braces_cons, Ho, Hc.
        destruct args as [| a args].
        -- rewrite (IH fmt []); [ cbn [Ascii.eqb Bool.eqb]; lia | cbn in Hlen; lia | exact Ht | constructor ].
        -- inversion Hargs as [| a' args' Ha Hrest]; subst.
           rewrite braces_app, (braces_show conv a Ha).
           rewrite (IH fmt args); [ cbn [Ascii.eqb Bool.eqb]; lia | cbn in Hlen; lia | exact Ht | exact Hrest ].
      * rewrite !braces_cons.
        rewrite (IH fmt args); [ lia | cbn in Hlen; lia | exact Ht | exact Hargs ].
Qed.

Lemma braces_printf_tame (fmt : string) (args : list Arg) :
  tame fmt = true -> Forall brace_free args ->
  braces (printf fmt args) = braces fmt.
Proof.
  apply (braces_printf_tame_bounded (String.length fmt)). lia.
Qed.

Lemma balance_Write (fmt : string) (args : list Arg) (r : Z) :
  braces (printf fmt args) = r -> balance (Write fmt args) = r.
Proof. intros <-. unfold balance, Write. cbn [fold_right emit_braces]. lia. Qed.

Lemma balance_seq_eq (a b : ShaderCode) (x y : Z) :
  balance a = x -> balance b = y -> balance (a ;; b) = x + y.
Proof. intros <- <-. apply balance_app. Qed.

Ltac brace_free_args :=
  repeat (apply Forall_cons;
          [ hnf; first [ exact I | assumption | vm_compute; reflexivity ] | ]);
  apply Forall_nil.

Ltac braces_format :=
  lazymatch goal with
  | |- braces (printf (append ?L ?rest) ?args) = _ =>
      tryif is_var L
      then (apply braces_printf_identifier; [ assumption | braces_format ])
      else first
             [ apply braces_printf_literal; [ vm_compute; reflexivity | braces_format ]
             | apply braces_printf_tame; [ vm_compute; reflexivity | brace_free_args ] ]
  | |- braces (printf ?L ?args) = _ =>
      apply braces_printf_tame; [ vm_compute; reflexivity | brace_free_args ]
  end.

Lemma balance_EmitVertex (hc : ShaderHostConfig) (uid : geometry_shader_uid_data)
  (vertex : string) (api : APIType) (w pl first_vertex : bool) :
  braces vertex = 0 ->
  balance (EmitVertex hc uid vertex api w pl first_vertex) = 0.
Proof.
  intros Hv.
  unfold EmitVertex, AssignVSOutputMembers, skip.
  destruct api; cbn [APIType_eqb is_glsl orb andb]; decide_branches;
    repeat rewrite balance_app;
    repeat match goal with
           | |- context [balance (Write ?f ?a)] =>
               rewrite (balance_Write f a (braces f))
                 by (apply braces_printf_tame; [ vm_compute; reflexivity | brace_free_args ])
           end;
    vm_compute; reflexivity.
Qed.

Ltac balance_structure :=
  lazymatch goal with
  | |- balance (app _ _) = _ =>
      apply balance_seq_eq; balance_structure
  | |- balance (for_u32 _ _) = _ =>
      apply balance_for_u32; intros; cbv beta;
      (etransitivity; [ balance_structure | vm_compute; reflexivity ])
  | |- balance (EmitVertex _ _ _ _ _ _ _) = _ =>
      apply balance_EmitVertex; vm_compute; reflexivity
  | |- balance (Write _ _) = _ =>
      apply balance_Write; braces_format
  | |- balance _ = ?r =>
      unify r 0; reflexivity
  end.

Ltac balance_piece :=
  unfold_pieces; cbn [APIType_eqb is_glsl orb andb negb];
  decide_branches;
  (etransitivity; [ balance_structure | vm_compute; reflexivity ]).

(** ** Braces *)

Section Balance.

Variables I_STEREOPARAMS I_LINEPTPARAMS I_TEXOFFSET : string.
Hypothesis stereoparams_identifier : identifier I_STEREOPARAMS = true.
Hypothesis lineptparams_identifier : identifier I_LINEPTPARAMS = true.
Hypothesis texoffset_identifier : identifier I_TEXOFFSET = true.

Lemma balance_of_pieces (g : Globals) (api : APIType) (hc : ShaderHostConfig)
  (p : PrimitiveType) (n : Z) :
  let uid := {| numTexGens := n; primitive_type := to_u32 p |} in
  balance (gs_declarations I_STEREOPARAMS I_LINEPTPARAMS I_TEXOFFSET g api hc uid) = 1 /\
  balance (gs_primitive_setup I_LINEPTPARAMS g api uid) = 0 /\
  balance (gs_vertex_fetch I_STEREOPARAMS g api hc uid) = 0 /\
  balance (gs_expand I_TEXOFFSET g api hc uid) = 0.
Proof.
  cbv zeta. 
  repeat split; destruct api, p;
    cbn [primitive_type numTexGens to_u32 Z.eqb Pos.eqb]; balance_piece.
Qed.

Lemma balance_of_avatar_pieces (g : Globals) (api : APIType) (hc : ShaderHostConfig)
  (p : PrimitiveType) :
  let uid := {| numTexGens := 1; primitive_type := to_u32 p |} in
  balance (avatar_declarations I_STEREOPARAMS I_LINEPTPARAMS I_TEXOFFSET g (to_u32 p) api hc)
    = 1 /\
  balance (avatar_primitive_setup I_LINEPTPARAMS (to_u32 p) api) = 0 /\
  balance (avatar_vertex_fetch I_STEREOPARAMS api hc) = 0 /\
  balance (avatar_expand I_TEXOFFSET g api hc uid) = 0.
Proof.
  cbv zeta.
  repeat split; destruct api, p;
    cbn [primitive_type numTexGens to_u32 Z.eqb Pos.eqb]; balance_piece.
Qed.

Lemma balance_of_loops (g : Globals) (api : APIType) (hc : ShaderHostConfig)
  (uid : geometry_shader_uid_data) :
  balance (gs_eye_open hc) + balance (gs_close g api hc uid) = -2 /\
  balance (avatar_eye_open hc) + balance (gs_close g api hc uid) = -2.
Proof.
  unfold gs_eye_open, avatar_eye_open, gs_close, EndPrimitive, skip.
  split; destruct api; cbn [is_glsl APIType_eqb orb];
    destruct (stereo hc || more_layers hc), (backend_gs_instancing hc), (wireframe hc);
    cbn [andb negb];
    repeat rewrite balance_app;
    rewrite ?balance_EmitVertex by reflexivity;
    repeat match goal with
           | |- context [balance (Write ?f ?a)] =>
               rewrite (balance_Write f a (braces f))
                 by (apply braces_printf_tame; [ vm_compute; reflexivity | brace_free_args ])
           end;
    vm_compute; reflexivity.
Qed.

Section Text.

Variable s_lighting_struct : string.
Variable GetInterpolationQualifier : bool -> bool -> bool -> bool -> string.
Variable VSOutputMembers_text : APIType -> Z -> bool -> string -> string.
Variable AssignMembers_text : string -> string -> Z -> bool -> string.
Variable OutputMember_text :
  APIType -> string -> string -> string -> Z -> string -> option Z -> string.

Local Abbreviation text_of :=
  (emit_text s_lighting_struct GetInterpolationQualifier VSOutputMembers_text
             AssignMembers_text OutputMember_text).
Local Abbreviation text :=
  (buffer_text s_lighting_struct GetInterpolationQualifier VSOutputMembers_text
               AssignMembers_text OutputMember_text).

Lemma braces_buffer_text (code : ShaderCode) :
  Forall (fun e => braces (text_of e) = emit_braces e) code ->
  braces (text code) = balance code.
Proof.
  unfold buffer_text, balance.
  induction code as [| e code IH]; intros Hcode; [ reflexivity | ].
  inversion Hcode as [| e' code' He Hrest]; subst.
  cbn [map fold_right]. rewrite <- (IH Hrest), <- He.
  destruct code as [| e2 code]; [ cbn; lia | ].
  cbn [map String.concat]. cbn [map String.concat] in IH.
  rewrite !braces_app. cbn [braces]. lia.
Qed.

End Text.

(** X14: when the three uniform names are identifiers, the writes of the
    general generator and of the avatar variant hold as many opening as
    closing braces, for every API, host configuration, primitive and
    number of texgens; and if the text each helper call contributes is
    balanced as well, so is the whole text of the buffer. *)
Theorem braces_balanced (g : Globals) (api : APIType) (hc : ShaderHostConfig)
  (p : PrimitiveType) (n : Z) :
  let code := GenerateGeometryShaderCode I_STEREOPARAMS I_LINEPTPARAMS I_TEXOFFSET
                g api hc {| numTexGens := n; primitive_type := to_u32 p |} in
  let avatar := GenerateAvatarGeometryShader I_STEREOPARAMS I_LINEPTPARAMS I_TEXOFFSET
                  g p api hc in
  balance code = 0 /\
  balance avatar = 0 /\
  forall s_lighting_struct GetInterpolationQualifier VSOutputMembers_text
         AssignMembers_text OutputMember_text,
    Forall (fun e =>
              braces (emit_text s_lighting_struct GetInterpolationQualifier
                                VSOutputMembers_text AssignMembers_text
                                OutputMember_text e) = emit_braces e) code ->
    braces (buffer_text s_lighting_struct GetInterpolationQualifier VSOutputMembers_text
                        AssignMembers_text OutputMember_text code) = 0.
Proof.
  cbv zeta.
  destruct (balance_of_pieces g api hc p n) as (Hd & Hs & Hf & Hx).
  destruct (balance_of_avatar_pieces g api hc p) as (Ad & As & Af & Ax).
  destruct (balance_of_loops g api hc {| numTexGens := n; primitive_type := to_u32 p |})
    as [Hloop _].
  destruct (balance_of_loops g api hc {| numTexGens := 1; primitive_type := to_u32 p |})
    as [_ Aloop].
  assert (Hfor : balance (Write "\tfor (int i = 0; i < %d; ++i) {\n"
                                [D_ (vertex_in_of (to_u32 p))]) = 1).
  { etransitivity; [ apply balance_Write, braces_printf_tame;
                     [ vm_compute; reflexivity | brace_free_args ] | reflexivity ]. }
  assert (Hcode : balance
            (GenerateGeometryShaderCode I_STEREOPARAMS I_LINEPTPARAMS I_TEXOFFSET
               g api hc {| numTexGens := n; primitive_type := to_u32 p |}) = 0).
  { unfold GenerateGeometryShaderCode. cbn [primitive_type].
    repeat rewrite balance_app. rewrite Hd, Hs, Hf, Hx, Hfor.
    destruct (wireframe hc); change (balance skip) with 0;
      change (balance (Write "\tVS_OUTPUT first;\n" [])) with 0; lia. }
  split; [ exact Hcode | split ].
  - unfold GenerateAvatarGeometryShader.
    repeat rewrite balance_app. rewrite Ad, As, Af, Ax, Hfor.
    destruct (wireframe hc); change (balance skip) with 0;
      change (balance (Write "\tVS_OUTPUT first;\n" [])) with 0; lia.
  - intros ls q ms am om Hhelpers.
    rewrite (braces_buffer_text ls q ms am om _ Hhelpers). exact Hcode.
Qed.

End Balance.

(** ** Wireframe, continued *)

Lemma texoffset_test_is_no_remember (X suffix : string) :
  identifier X = true ->
  count is_remember (Write ("\tif (" ++ X ++ String "[" suffix) []) = 0%nat.
Proof.
  intros HX.
  unfold count, Write, is_remember, starts_with.
  cbn [filter].
  replace (printf ("\tif (" ++ X ++ String "[" suffix) [])
    with (printf "\tif (" [] ++ X ++ printf (String "[" suffix) [])%string.
  2:{ cbn [append printf Ascii.eqb Bool.eqb escape].
      rewrite (printf_identifier X _ [] HX). reflexivity. }
  destruct X as [| c X]; [ reflexivity | ].
  cbn [identifier] in HX. apply andb_true_iff in HX. destruct HX as [Hc HX].
  destruct (c =? "i")%char eqn:Hi.
  - apply Ascii.eqb_eq in Hi. subst c.
    destruct X as [| c' X]; [ reflexivity | ].
    cbn [identifier] in HX. apply andb_true_iff in HX. destruct HX as [Hc' _].
    destruct (ident_char_is_plain c' Hc') as (_ & _ & _ & _ & Hsp).
    cbn. cbn in Hsp. rewrite Hsp. reflexivity.
  - cbn. rewrite Ascii.eqb_sym in Hi. cbn in Hi. rewrite Hi. reflexivity.
Qed.

Section Remember.

Variables I_STEREOPARAMS I_LINEPTPARAMS I_TEXOFFSET : string.
Hypothesis texoffset_identifier : identifier I_TEXOFFSET = true.

(** X6: when the name of the texture-offset uniform is an identifier, the
    output remembers a first vertex in exactly one statement, and declares
    the variable [first] once, under wireframe; without wireframe it holds
    neither. *)
Theorem first_vertex_remembered_once (g : Globals) (api : APIType)
  (hc : ShaderHostConfig) (p : PrimitiveType) (n : Z) :
  let code := GenerateGeometryShaderCode I_STEREOPARAMS I_LINEPTPARAMS I_TEXOFFSET
                g api hc {| numTexGens := n; primitive_type := to_u32 p |} in
  count is_remember code = Nat.b2n (wireframe hc) /\
  count is_first_decl code = Nat.b2n (wireframe hc).
Proof.
  cbv zeta.
  destruct hc as [w ms ss st v ml gi dc], g as [cfg bug xf].
  cbn [wireframe].
  split; destruct p; count_split;
    repeat match goal with
           | |- context [count is_remember
                               (Write (append ?a (append I_TEXOFFSET (String "[" ?sfx))) [])] =>
               replace (count is_remember
                              (Write (append a (append I_TEXOFFSET (String "[" sfx))) []))
                 with 0%nat
                 by (symmetry; apply texoffset_test_is_no_remember; exact texoffset_identifier)
           end;
    destruct api; all_flags w st v ml gi dc bug.
Qed.

End Remember.

(** ** Layers, continued *)

Section MoreLayers.

Variables I_STEREOPARAMS I_LINEPTPARAMS I_TEXOFFSET : string.

(** X15: [gl_Layer] is assigned once per input vertex or not at all: under
    vr on OpenGL only, without vr under stereo or more_layers on OpenGL
    and on Vulkan, and never on D3D.  Under vr the Vulkan output so selects
    the layer in its own interface member but leaves [gl_Layer] alone. *)
Theorem gl_layer_guards (g : Globals) (api : APIType) (hc : ShaderHostConfig)
  (p : PrimitiveType) (n : Z) :
  count is_gl_layer
        (GenerateGeometryShaderCode I_STEREOPARAMS I_LINEPTPARAMS I_TEXOFFSET
           g api hc {| numTexGens := n; primitive_type := to_u32 p |}) =
  Nat.b2n (if vr hc
           then APIType_eqb api OpenGL
           else (stereo hc || more_layers hc) && is_glsl api).
Proof.
  destruct hc as [w ms ss st v ml gi dc], g as [cfg bug xf].
  cbn [stereo more_layers vr].
  destruct p; count_split; destruct api; all_flags w st v ml gi dc bug.
Qed.

(** X16: the avatar variant guards its layers as the general generator
    does: a layer member and an introduction of [eye] exactly under stereo
    or more_layers, one selection of the layer exactly under vr, stereo or
    more_layers; it assigns [gl_Layer] on OpenGL only. *)
Theorem avatar_layer_guards (g : Globals) (p : PrimitiveType) (api : APIType)
  (hc : ShaderHostConfig) :
  let code := GenerateAvatarGeometryShader I_STEREOPARAMS I_LINEPTPARAMS I_TEXOFFSET
                g p api hc in
  count is_layer_member code = Nat.b2n (stereo hc || more_layers hc) /\
  count is_eye_intro code = Nat.b2n (stereo hc || more_layers hc) /\
  count is_layer_select code = Nat.b2n (vr hc || stereo hc || more_layers hc) /\
  count is_gl_layer code =
    Nat.b2n ((vr hc || stereo hc || more_layers hc) && APIType_eqb api OpenGL).
Proof.
  cbv zeta.
  destruct hc as [w ms ss st v ml gi dc], g as [[sm wf pl pr bl] bug xf].
  cbn [stereo more_layers vr].
  repeat split; destruct api, p, w, st, v, ml, gi, dc, bl; vm_compute; reflexivity.
Qed.

End MoreLayers.

(** ** The further properties at the sample instance *)

Lemma first_vertex_remembered_once_witness :
  identifier Sample.texoffset = true /\
  count is_remember
        (GenerateGeometryShaderCode Sample.stereoparams Sample.lineptparams Sample.texoffset
           Sample.globals Vulkan Sample.wireframed Sample.lines2) = 1%nat.
Proof.
  split; [ reflexivity | ].
  exact (proj1 (first_vertex_remembered_once
                  Sample.stereoparams Sample.lineptparams Sample.texoffset eq_refl
                  Sample.globals Vulkan Sample.wireframed Lines 2)).
Defined.

Lemma braces_balanced_witness :
  (identifier Sample.stereoparams = true /\
   identifier Sample.lineptparams = true /\
   identifier Sample.texoffset = true) /\
  balance (GenerateGeometryShaderCode Sample.stereoparams Sample.lineptparams Sample.texoffset
             Sample.globals D3D Sample.four_layers Sample.lines2) = 0.
Proof.
  split; [ repeat split | ].
  exact (proj1 (braces_balanced
                  Sample.stereoparams Sample.lineptparams Sample.texoffset
                  eq_refl eq_refl eq_refl
                  Sample.globals D3D Sample.four_layers Lines 2)).
Defined.
